(** * clash-dashboard: the control client of [src/lib/request.ts]

    A shallow embedding of the endpoint resolver, the REST wrappers that the
    stream factories depend on, and the two stream singleton factories,
    together with the properties the specification states about them.

    JavaScript values are modelled by the types TypeScript gives them:
    strings as [string], [string | null] as [option string], HTTP status
    codes as [Z], and a rejected promise or a thrown exception as the [Throw]
    branch of [Result].  An [await] is the bind of the corresponding monad. *)

From Stdlib Require Import String List ZArith Bool Arith Lia.
Import ListNotations.

Open Scope string_scope.

(* ------------------------------------------------------------------ *)
(** ** JavaScript basics *)

Module Js.

(** An [Error] object.  Every error is an object, hence truthy. *)
Record Error := mkError { name : string; message : string }.

(** The settled state of a promise (or the completion of a function
    body): fulfilled with a value, or rejected with an error. *)
Inductive Result (A : Type) : Type :=
| Ok (a : A)
| Throw (e : Error).
Arguments Ok {A} a.
Arguments Throw {A} e.

Definition bind {A B} (r : Result A) (k : A -> Result B) : Result B :=
  match r with
  | Ok a => k a
  | Throw e => Throw e
  end.

Definition is_throw {A} (r : Result A) : bool :=
  match r with Ok _ => false | Throw _ => true end.

(** [!!s] for a string: only the empty string is falsy. *)
Definition truthy (s : string) : bool := negb (s =? "").

(** [a ?? b] where [a : T | null | undefined]. *)
Definition nullish {A} (a : option A) (b : A) : A :=
  match a with Some v => v | None => b end.

(** [o?.f] where [o : T | undefined]. *)
Definition opt_chain {A B} (o : option A) (f : A -> B) : option B :=
  match o with Some v => Some (f v) | None => None end.

(** A value that is either a string or a boolean, as produced by
    [string | null ?? boolean]. *)
Inductive StrOrBool := IsStr (s : string) | IsBool (b : bool).

Definition truthy_sb (v : StrOrBool) : bool :=
  match v with IsStr s => truthy s | IsBool b => b end.

End Js.
Export Js.

Declare Scope result_scope.
Delimit Scope result_scope with result.
Notation "x <- r ;; k" := (Js.bind r (fun x => k))
  (at level 61, r at next level, right associativity) : result_scope.

(* ------------------------------------------------------------------ *)
(** ** The browser environment read by the endpoint resolver *)

(** The fields of a [URL] object that the resolver reads. *)
Record URL := mkURL {
  url_protocol : string;
  url_username : string;
  url_hostname : string;
  url_port : string
}.

(** [jsBridge.getAPIInfo()]'s answer. *)
Record APIInfo := mkAPIInfo {
  info_host : string;
  info_port : string;
  info_secret : string
}.

(** What [getExternalControllerConfig] reads from its surroundings.  The
    helpers of [@lib/helper] and [@lib/jsBridge] and the browser's [URL]
    constructor are taken as they are used at the call sites:

    - [clashX]: [None] when [isClashX()] is false; otherwise the outcome of
      [await jsBridge!.getAPIInfo()];
    - [meta_content]: the [content] of the [external-controller] meta
      element, [None] when the page has no such element;
    - [URL_new s]: [new URL(s)], which throws on an unparsable string;
    - [getSearchParam key : string | null];
    - [getLocalStorageItem key defaultValue : string];
    - [location_protocol]: [window.location.protocol]. *)
Record Env := mkEnv {
  clashX : option (Result APIInfo);
  meta_content : option string;
  URL_new : string -> Result URL;
  getSearchParam : string -> option string;
  getLocalStorageItem : string -> string -> string;
  location_protocol : string
}.

(** The resolved endpoint returned by [getExternalControllerConfig]. *)
Record ExternalControllerConfig := mkECC {
  hostname : string;
  port : string;
  secret : string;
  protocol : string
}.

Module Resolver.

Local Open Scope result_scope.

(** [content.match(/^https?:/)] as a boolean. *)
Definition matches_http (content : string) : bool :=
  String.prefix "http:" content || String.prefix "https:" content.

(** Lines 113-120: the optional [url] taken from the page's meta element. *)
Definition page_url (env : Env) : Result (option URL) :=
  match meta_content env with
  | Some content =>
      if matches_http content
      then (u <- URL_new env content ;; Ok (Some u))
      else Ok None
  | None => Ok None
  end.

(** Line 122. *)
Definition resolve_hostname (env : Env) (url : option URL) : string :=
  nullish (getSearchParam env "host")
    (getLocalStorageItem env "externalControllerAddr"
       (nullish (opt_chain url url_hostname) "127.0.0.1")).

(** Line 123. *)
Definition resolve_port (env : Env) (url : option URL) : string :=
  nullish (getSearchParam env "port")
    (getLocalStorageItem env "externalControllerPort"
       (nullish (opt_chain url url_port) "9090")).

(** Line 124. *)
Definition resolve_secret (env : Env) (url : option URL) : string :=
  nullish (getSearchParam env "secret")
    (getLocalStorageItem env "secret"
       (nullish (opt_chain url url_username) "")).

(** Line 125.  [??] binds tighter than [? :] and looser than [===], so the
    expression parses as
    [(getSearchParam('protocol') ?? (hostname === '127.0.0.1')) ? 'http:' : (...)]. *)
Definition resolve_protocol (env : Env) (url : option URL) (hostname : string)
  : string :=
  let cond :=
    match getSearchParam env "protocol" with
    | Some s => IsStr s
    | None => IsBool (hostname =? "127.0.0.1")
    end in
  if truthy_sb cond
  then "http:"
  else nullish (opt_chain url url_protocol) (location_protocol env).

Definition cant_get : Error :=
  mkError "Error" "can't get hostname or port".

(** Lines 101-132. *)
Definition getExternalControllerConfig (env : Env)
  : Result ExternalControllerConfig :=
  match clashX env with
  | Some getAPIInfo =>
      info <- getAPIInfo ;;
      Ok {| hostname := info_host info;
            port := info_port info;
            secret := info_secret info;
            protocol := "http:" |}
  | None =>
      url <- page_url env ;;
      let hostname := resolve_hostname env url in
      let port := resolve_port env url in
      let secret := resolve_secret env url in
      let protocol := resolve_protocol env url hostname in
      if negb (truthy hostname) || negb (truthy port)
      then Throw cant_get
      else Ok {| hostname := hostname; port := port;
                 secret := secret; protocol := protocol |}
  end.

End Resolver.
Export Resolver.

(* ------------------------------------------------------------------ *)
(** ** The once-only asynchronous initializer *)

Module AsyncSingleton.

Local Open Scope list_scope.

Definition Caller := nat.

Section Holder.

Context {T : Type}.

(** The wrapped asynchronous factory: [factory k] is the outcome with
    which its [k]-th invocation eventually settles. *)
Variable factory : nat -> Result T.

(** Modelled from the spec: [createAsyncSingleton] of
    [@lib/asyncSingleton] is not part of the sources at hand.  The holder
    is in exactly one of the states unresolved, in-flight (with the
    operation being awaited and the callers waiting on it), resolved,
    or failed. *)
Inductive Cell : Type :=
| Unresolved
| InFlight (pending : Result T) (waiters : list Caller)
| Resolved (v : T)
| Failed (e : Error).

(** The holder together with two observers: how often the factory has
    been invoked, and which outcome each caller has received. *)
Record State : Type := mkState {
  cell : Cell;
  invocations : nat;
  delivered : list (Caller * Result T)
}.

Inductive Event : Type :=
| Call (c : Caller)   (* a caller invokes the wrapped function *)
| Settle.             (* the in-flight operation settles *)

Definition init : State := mkState Unresolved 0 [].

Definition settled (o : Result T) : Cell :=
  match o with Ok v => Resolved v | Throw e => Failed e end.

(** Modelled from the spec: section 4.1.  The first call invokes the
    factory; callers arriving before it settles wait on the same
    operation; on success the value is cached; on failure the failure
    is cached and not retried. *)
Definition step (s : State) (ev : Event) : State :=
  match ev, cell s with
  | Call c, Unresolved =>
      mkState (InFlight (factory (invocations s)) [c])
              (S (invocations s)) (delivered s)
  | Call c, InFlight p ws =>
      mkState (InFlight p (ws ++ [c])) (invocations s) (delivered s)
  | Call c, Resolved v =>
      mkState (cell s) (invocations s) (delivered s ++ [(c, Ok v)])
  | Call c, Failed e =>
      mkState (cell s) (invocations s) (delivered s ++ [(c, Throw e)])
  | Settle, InFlight p ws =>
      mkState (settled p) (invocations s)
              (delivered s ++ map (fun c => (c, p)) ws)
  | Settle, _ => s
  end.

Definition run (s : State) (evs : list Event) : State :=
  fold_left step evs s.

Definition is_call (ev : Event) : bool :=
  match ev with Call _ => true | Settle => false end.

(** The callers of a trace, in order. *)
Definition callers (evs : list Event) : list Caller :=
  flat_map (fun ev => match ev with Call c => [c] | Settle => [] end) evs.

Definition waiting (s : State) : list Caller :=
  match cell s with InFlight _ ws => ws | _ => [] end.

(** [await wrapped()]: a call followed by the settlement of whatever is
    in flight, as seen by a caller that runs to completion. *)
Definition get (c : Caller) (s : State) : Result T * State :=
  (match cell s with
   | Unresolved => factory (invocations s)
   | InFlight p _ => p
   | Resolved v => Ok v
   | Failed e => Throw e
   end,
   step (step s (Call c)) Settle).

(** What holds of every state reached from [init] by the trace [evs]: the
    factory has run once if anybody called and not at all otherwise, the
    operation in flight is its first invocation, nothing is delivered
    before it settles, everything delivered is its outcome, and every
    caller has either been answered or is waiting. *)
Definition consistent (evs : list Event) (s : State) : Prop :=
  invocations s = Nat.min 1 (length (callers evs))
  /\ (cell s = Unresolved <-> invocations s = 0)
  /\ Forall (fun d => snd d = factory 0) (delivered s)
  /\ match cell s with
     | Unresolved => delivered s = []
     | InFlight p _ => p = factory 0 /\ delivered s = []
     | Resolved _ | Failed _ => cell s = settled (factory 0)
     end
  /\ map fst (delivered s) ++ waiting s = callers evs.

End Holder.

Arguments Cell : clear implicits.
Arguments State : clear implicits.


End AsyncSingleton.

(* ------------------------------------------------------------------ *)
(** ** The stream reader *)

Module Streamer.

Local Open Scope list_scope.

(** The configuration object passed to [new StreamReader]. *)
Record Config := mkConfig {
  url : string;
  bufferLength : nat;
  token : string;
  useWebsocket : bool
}.

(** Modelled from the spec: the [StreamReader] class of [./streamer] is
    not part of the sources at hand.  A reader owns its immutable
    configuration, a bounded buffer of the most recent records, each under
    its sequence number, and the next sequence number to assign. *)
Record StreamReader (T : Type) := mkReader {
  config : Config;
  buffer : list (nat * T);
  next_seq : nat
}.
Arguments mkReader {T}.
Arguments config {T}.
Arguments buffer {T}.
Arguments next_seq {T}.

(** Modelled from the spec: construction performs no I/O and starts with
    an empty buffer. *)
Definition new {T} (cfg : Config) : StreamReader T :=
  mkReader cfg [] 0.

(** Modelled from the spec: section 4.2, buffer policy.  A decoded record
    is appended under the next sequence number; if the buffer is at
    capacity, the oldest record is evicted before insertion. *)
Definition produce {T} (sr : StreamReader T) (r : T) : StreamReader T :=
  let kept :=
    if (bufferLength (config sr) <=? length (buffer sr))%nat
    then tl (buffer sr)
    else buffer sr in
  mkReader (config sr) (kept ++ [(next_seq sr, r)]) (S (next_seq sr)).

Definition feed {T} (sr : StreamReader T) (rs : list T) : StreamReader T :=
  fold_left produce rs sr.

(** The records [rs] under the sequence numbers they are produced with
    by a fresh reader. *)
Definition stamped {T} (rs : list T) : list (nat * T) :=
  combine (seq 0 (length rs)) rs.

Definition records {T} (sr : StreamReader T) : list T :=
  map snd (buffer sr).

Definition seqs {T} (sr : StreamReader T) : list nat :=
  map fst (buffer sr).

End Streamer.

(* ------------------------------------------------------------------ *)
(** ** The daemon's payloads (the interfaces of lines 8-99) *)

Module Models.

Record Config := mkConfig {
  cfg_port : Z;
  socks_port : Z;
  redir_port : Z;
  mixed_port : Z;
  allow_lan : bool;
  mode : string;
  log_level : string
}.

Record History := mkHistory { time : string; delay : Z }.

Inductive ProxyType :=
| Direct | Reject | Shadowsocks | Vmess | Socks | Http | Snell.

Record Proxy := mkProxy {
  proxy_name : string;
  proxy_type : ProxyType;
  proxy_history : list History
}.

Inductive GroupType := Selector | URLTest | Fallback.

Record Group := mkGroup {
  group_name : string;
  group_type : GroupType;
  now : string;
  all : list string;
  group_history : list History
}.

Inductive VehicleType := HTTP | File | Compatible.

Record Provider := mkProvider {
  provider_name : string;
  proxies : list (Group + Proxy);
  vehicleType : VehicleType;
  updatedAt : option string
}.

(** [Record<string, Provider>]: an object used as a map, in insertion
    order. *)
Record ProxyProviders := mkProxyProviders {
  providers : list (string * Provider)
}.

Record Metadata := mkMetadata {
  network : string;
  metadata_type : string;
  host : string;
  sourceIP : string;
  sourcePort : string;
  destinationPort : string;
  destinationIP : option string
}.

Record Connections := mkConnections {
  id : string;
  metadata : Metadata;
  upload : Z;
  download : Z;
  start : string;
  chains : list string;
  rule : string;
  rulePayload : string
}.

Record Snapshot := mkSnapshot {
  uploadTotal : Z;
  downloadTotal : Z;
  connections : list Connections
}.

Record Version := mkVersion {
  version : string;
  premium : option bool
}.

End Models.

(* ------------------------------------------------------------------ *)
(** ** The HTTP client *)

Module Axios.

(** An instance made by [axios.create]: its base URL and, when a secret is
    configured, its [Authorization] header. *)
Record Instance := mkInstance {
  baseURL : string;
  authorization : option string
}.

Record Response (D : Type) := mkResponse {
  status : Z;
  data : D
}.
Arguments mkResponse {D}.
Arguments status {D}.
Arguments data {D}.

(** The client's default [validateStatus]. *)
Definition default_validateStatus (status : Z) : bool :=
  (200 <=? status)%Z && (status <? 300)%Z.

Definition bad_status : Error :=
  mkError "AxiosError" "Request failed".

(** How the client settles a request once the daemon has answered: the
    promise is fulfilled when the response has no status or
    [validateStatus] accepts it, and rejected otherwise. *)
Definition settle {D} (validateStatus : Z -> bool) (resp : Response D)
  : Result (Response D) :=
  if (status resp =? 0)%Z || validateStatus (status resp)
  then Ok resp
  else Throw bad_status.

(** [req.get(path, { validateStatus })], given what the transport produced
    for the request: a response of the daemon, or a network failure. *)
Definition get {D} (transport : Result (Response D))
  (validateStatus : Z -> bool) : Result (Response D) :=
  Js.bind transport (settle validateStatus).

End Axios.

(** What the daemon (and the network in front of it) answers to the [GET]
    requests used here, as a function of the client instance that sends
    them.  [Throw] is a failure without a response.  An answer carries a
    body of the type the wrapper declares for it ([req.get<T>]); a reply
    whose body is [null] or of another shape is outside this model. *)
Record Daemon := mkDaemon {
  GET_configs : Axios.Instance -> Result (Axios.Response Models.Config);
  GET_version : Axios.Instance -> Result (Axios.Response Models.Version);
  GET_providers_proxies :
    Axios.Instance -> Result (Axios.Response Models.ProxyProviders)
}.

(* ------------------------------------------------------------------ *)
(** ** [src/lib/request.ts] *)

Module Request.

Import Streamer.

(** An asynchronous function of this module run to completion: it reads
    and updates the [getInstance] singleton and settles with a [Result]. *)
Definition Async (A : Type) : Type :=
  AsyncSingleton.State Axios.Instance ->
  Result A * AsyncSingleton.State Axios.Instance.

Definition ret {A} (a : A) : Async A := fun s => (Ok a, s).

Definition lift {A} (r : Result A) : Async A := fun s => (r, s).

Definition abind {A B} (m : Async A) (k : A -> Async B) : Async B :=
  fun s =>
    match m s with
    | (Ok a, s') => k a s'
    | (Throw e, s') => (Throw e, s')
    end.

Declare Scope async_scope.
Delimit Scope async_scope with async.
Notation "x <- m ;; k" := (abind m (fun x => k))
  (at level 61, m at next level, right associativity) : async_scope.
Local Open Scope async_scope.

(** Modelled from the spec: the helper [to] of [@lib/helper] is not part of
    the sources at hand.  It awaits a promise and turns its outcome into a
    pair [[data, err]], so that a failure does not abort the caller. *)
Definition to {A} (m : Async A) : Async (option A * option Error) :=
  fun s =>
    match m s with
    | (Ok a, s') => (Ok (Some a, None), s')
    | (Throw e, s') => (Ok (None, Some e), s')
    end.

Section Run.

Variable env : Env.
Variable daemon : Daemon.

(** Lines 134-146: the factory wrapped by [getInstance]. *)
Definition getInstance_factory : Result Axios.Instance :=
  (c <- getExternalControllerConfig env ;;
   Ok {| Axios.baseURL :=
           protocol c ++ "//" ++ hostname c ++ ":" ++ port c;
         Axios.authorization :=
           if truthy (secret c) then Some ("Bearer " ++ secret c) else None |}
  )%result.

Definition getInstance : Async Axios.Instance :=
  AsyncSingleton.get (fun _ => getInstance_factory) 0.

(** Lines 148-151. *)
Definition getConfig : Async (Axios.Response Models.Config) :=
  req <- getInstance ;;
  lift (Axios.get (GET_configs daemon req) Axios.default_validateStatus).

(** Lines 171-174. *)
Definition providers_validateStatus (status : Z) : bool :=
  ((200 <=? status)%Z && (status <? 300)%Z) || (status =? 404)%Z.

(** Lines 177-182. *)
Definition providers_compat (resp : Axios.Response Models.ProxyProviders)
  : Axios.Response Models.ProxyProviders :=
  if (Axios.status resp =? 404)%Z
  then Axios.mkResponse (Axios.status resp) (Models.mkProxyProviders [])
  else resp.

(** Lines 168-183. *)
Definition getProxyProviders : Async (Axios.Response Models.ProxyProviders) :=
  req <- getInstance ;;
  resp <- lift (Axios.get (GET_providers_proxies daemon req)
                  providers_validateStatus) ;;
  ret (providers_compat resp).

(** Lines 215-218. *)
Definition getVersion : Async (Axios.Response Models.Version) :=
  req <- getInstance ;;
  lift (Axios.get (GET_version daemon req) Axios.default_validateStatus).

Definition null_data : Error :=
  mkError "TypeError" "Cannot read properties of null".

(** Lines 254 and 264:
    [err ? 'unkonwn version' : data.data.version]. *)
Definition version_of
  (probe : option (Axios.Response Models.Version) * option Error)
  : Result string :=
  match snd probe with
  | Some _ => Ok "unkonwn version"
  | None =>
      match fst probe with
      | Some data => Ok (Models.version (Axios.data data))
      | None => Throw null_data
      end
  end.

(** Lines 255 and 266: [!!version || true]. *)
Definition useWebsocket_of (version : string) : bool :=
  truthy version || true.

(** Line 257. *)
Definition logs_url (c : ExternalControllerConfig) (level : string) : string :=
  protocol c ++ "//" ++ hostname c ++ ":" ++ port c ++ "/logs?level=" ++ level.

(** Line 267. *)
Definition connections_url (c : ExternalControllerConfig) : string :=
  protocol c ++ "//" ++ hostname c ++ ":" ++ port c ++ "/connections".

(** Lines 250-259: the factory wrapped by [getLogsStreamReader].  The record
    type [Log] of [@models/Log] is a parameter. *)
Definition getLogsStreamReader_factory {Log : Type}
  : Async (StreamReader Log) :=
  externalController <- lift (getExternalControllerConfig env) ;;
  resp <- getConfig ;;
  let config := Axios.data resp in
  probe <- to getVersion ;;
  version <- lift (version_of probe) ;;
  let useWebsocket := useWebsocket_of version in
  let logUrl := logs_url externalController (Models.log_level config) in
  ret (Streamer.new
         {| url := logUrl; bufferLength := 200;
            token := secret externalController;
            useWebsocket := useWebsocket |}).

(** Lines 261-269: the factory wrapped by [getConnectionStreamReader]. *)
Definition getConnectionStreamReader_factory
  : Async (StreamReader Models.Snapshot) :=
  externalController <- lift (getExternalControllerConfig env) ;;
  probe <- to getVersion ;;
  version <- lift (version_of probe) ;;
  let useWebsocket := useWebsocket_of version in
  let logUrl := connections_url externalController in
  ret (Streamer.new
         {| url := logUrl; bufferLength := 200;
            token := secret externalController;
            useWebsocket := useWebsocket |}).

(** [getLogsStreamReader = createAsyncSingleton(factory)], observed over a
    trace of calls and settlements; [worlds k] is the state of the
    [getInstance] singleton in which the [k]-th invocation of the factory
    runs. *)
Definition getLogsStreamReader {Log : Type}
  (worlds : nat -> AsyncSingleton.State Axios.Instance)
  (evs : list (AsyncSingleton.Event))
  : AsyncSingleton.State (StreamReader Log) :=
  AsyncSingleton.run
    (fun k => fst (getLogsStreamReader_factory (worlds k)))
    AsyncSingleton.init evs.

(** [getConnectionStreamReader = createAsyncSingleton(factory)]. *)
Definition getConnectionStreamReader
  (worlds : nat -> AsyncSingleton.State Axios.Instance)
  (evs : list (AsyncSingleton.Event))
  : AsyncSingleton.State (StreamReader Models.Snapshot) :=
  AsyncSingleton.run
    (fun k => fst (getConnectionStreamReader_factory (worlds k)))
    AsyncSingleton.init evs.

End Run.

End Request.

(* ------------------------------------------------------------------ *)
(** ** Concrete surroundings used to exercise the definitions *)

Module Fixtures.

Definition invalid_url : Error := mkError "TypeError" "Invalid URL".

Definition no_url (_ : string) : Result URL := Throw invalid_url.

(** A plain browser page: no ClashX bridge, no meta element, no search
    parameters, empty local storage. *)
Definition env_default : Env :=
  mkEnv None None no_url (fun _ => None) (fun _ d => d) "https:".

(** A page opened as
    [?host=192.168.1.2&port=9090&secret=s3cret&protocol=https:]. *)
Definition remote_params (key : string) : option string :=
  if key =? "host" then Some "192.168.1.2"
  else if key =? "port" then Some "9090"
  else if key =? "secret" then Some "s3cret"
  else if key =? "protocol" then Some "https:"
  else None.

Definition env_remote : Env :=
  mkEnv None None no_url remote_params (fun _ d => d) "https:".

(** The ClashX runtime with a bridge call that fails. *)
Definition bridge_failed : Error :=
  mkError "TypeError" "Cannot read properties of null".

Definition env_clashx_failed : Env :=
  mkEnv (Some (Throw bridge_failed)) None no_url (fun _ => None)
        (fun _ d => d) "https:".

(** A page whose meta element holds a scheme without a host, which the
    [URL] constructor rejects. *)
Definition env_bad_meta : Env :=
  mkEnv None (Some "http:") no_url (fun _ => None) (fun _ d => d) "https:".

Definition config0 : Models.Config :=
  Models.mkConfig 7890 7891 0 0 false "rule" "info".

Definition network_error : Error := mkError "AxiosError" "Network Error".

(** A daemon that answers every request. *)
Definition daemon_ok : Daemon :=
  mkDaemon
    (fun _ => Ok (Axios.mkResponse 200 config0))
    (fun _ => Ok (Axios.mkResponse 200 (Models.mkVersion "v1.18.0" None)))
    (fun _ => Ok (Axios.mkResponse 200 (Models.mkProxyProviders []))).

(** An old daemon: no [version] and no [providers/proxies] route. *)
Definition daemon_old : Daemon :=
  mkDaemon
    (fun _ => Ok (Axios.mkResponse 200 config0))
    (fun _ => Ok (Axios.mkResponse 404 (Models.mkVersion "" None)))
    (fun _ => Ok (Axios.mkResponse 404 (Models.mkProxyProviders []))).

Definition fresh : AsyncSingleton.State Axios.Instance :=
  AsyncSingleton.init.

(** A factory that fails on every invocation. *)
Definition boom : Error := mkError "Error" "boom".

Definition failing (_ : nat) : Result nat := Throw boom.

End Fixtures.

(* ------------------------------------------------------------------ *)
(** ** Percent-encoding of path segments *)

From Stdlib Require Import Ascii.

Module Uri.

(** Strings stand for the UTF-8 bytes of well-formed JavaScript strings.
    On those, [encodeURIComponent] keeps the unreserved characters
    (letters, digits and [- _ . ! ~ * ' ( )]) and writes every other byte
    as [%XX] with upper-case hexadecimal digits.  A string with a lone
    surrogate, on which the built-in throws, has no such reading. *)
Definition is_alnum (a : ascii) : bool :=
  let n := N_of_ascii a in
  ((48 <=? n) && (n <=? 57) || (65 <=? n) && (n <=? 90)
   || (97 <=? n) && (n <=? 122))%N.

Definition marks : list ascii :=
  ["-"; "_"; "."; "!"; "~"; "*"; "'"; "("; ")"]%char.

Definition unreserved (a : ascii) : bool :=
  is_alnum a || existsb (Ascii.eqb a) marks.

Definition hex_digits : list ascii :=
  ["0"; "1"; "2"; "3"; "4"; "5"; "6"; "7";
   "8"; "9"; "A"; "B"; "C"; "D"; "E"; "F"]%char.

Definition hex_digit (n : nat) : ascii := nth n hex_digits "0"%char.

Definition escape (a : ascii) : string :=
  let n := nat_of_ascii a in
  String "%" (String (hex_digit (n / 16))
                (String (hex_digit (n mod 16)) EmptyString)).

Definition encode_byte (a : ascii) : string :=
  if unreserved a then String a EmptyString else escape a.

(** The alphabet of an encoded segment. *)
Definition segment_char (a : ascii) : bool :=
  unreserved a || Ascii.eqb a "%".

Fixpoint encodeURIComponent (s : string) : string :=
  match s with
  | EmptyString => EmptyString
  | String a rest => encode_byte a ++ encodeURIComponent rest
  end.

(** Reading an encoded segment back, used to state that the encoding
    loses nothing. *)
Fixpoint hex_index (a : ascii) (digits : list ascii) : option nat :=
  match digits with
  | [] => None
  | d :: rest =>
      if Ascii.eqb a d then Some 0 else option_map S (hex_index a rest)
  end.

Definition hex_value (a : ascii) : option nat := hex_index a hex_digits.

Fixpoint percent_decode (s : string) : option string :=
  match s with
  | EmptyString => Some EmptyString
  | String c rest =>
      if Ascii.eqb c "%"
      then match rest with
           | String h (String l rest') =>
               match hex_value h, hex_value l, percent_decode rest' with
               | Some x, Some y, Some t =>
                   Some (String (ascii_of_nat (16 * x + y)) t)
               | _, _, _ => None
               end
           | _ => None
           end
      else option_map (String c) (percent_decode rest)
  end.

(** How often the character [c] occurs in [s]. *)
Fixpoint count_char (c : ascii) (s : string) : nat :=
  match s with
  | EmptyString => 0
  | String a rest => (if Ascii.eqb a c then 1 else 0) + count_char c rest
  end.

(** Every character of [s] satisfies [p]. *)
Fixpoint all_chars (p : ascii -> bool) (s : string) : bool :=
  match s with
  | EmptyString => true
  | String a rest => p a && all_chars p rest
  end.

End Uri.

(* ------------------------------------------------------------------ *)
(** ** The remaining REST wrappers of [src/lib/request.ts] *)

Module Rest.

Import Request Uri.
Local Open Scope async_scope.

Inductive Method := GET | PUT | PATCH | DELETE.

(** [Partial<Config>]. *)
Record PartialConfig := mkPartialConfig {
  p_port : option Z;
  p_socks_port : option Z;
  p_redir_port : option Z;
  p_mixed_port : option Z;
  p_allow_lan : option bool;
  p_mode : option string;
  p_log_level : option string
}.

(** The request bodies sent by this module. *)
Inductive Payload :=
| NoPayload
| ConfigPayload (config : PartialConfig)   (* [config] *)
| NamePayload (name : string).             (* [{ name: select }] *)

Inductive ParamValue := PNum (n : Z) | PStr (s : string).

(** One request handed to the client instance: method, URL relative to
    the instance's base URL, query parameters and body. *)
Record Call := mkCall {
  method : Method;
  path : string;
  params : list (string * ParamValue);
  payload : Payload
}.

Section Wrappers.

Variable env : Env.

(** The type of the response bodies, and what the daemon (and the network
    in front of it) answers to a request sent through a client instance. *)
Context {Body : Type}.
Variable transport : Axios.Instance -> Call -> Result (Axios.Response Body).

(** [const req = await getInstance(); return req.<method>(...)] without a
    [validateStatus] of its own. *)
Definition send (c : Call) : Async (Axios.Response Body) :=
  req <- getInstance env ;;
  lift (Axios.get (transport req c) Axios.default_validateStatus).

(** Lines 153-156. *)
Definition updateConfig_call (config : PartialConfig) : Call :=
  mkCall PATCH "configs" [] (ConfigPayload config).
Definition updateConfig (config : PartialConfig) :=
  send (updateConfig_call config).

(** Lines 158-161. *)
Definition getRules_call : Call := mkCall GET "rules" [] NoPayload.
Definition getRules := send getRules_call.

(** Lines 163-166. *)
Definition updateRules_call : Call := mkCall PUT "rules" [] NoPayload.
Definition updateRules := send updateRules_call.

(** Lines 185-188. *)
Definition getRuleProviders_call : Call :=
  mkCall GET "providers/rules" [] NoPayload.
Definition getRuleProviders := send getRuleProviders_call.

(** Lines 190-193. *)
Definition updateProvider_call (name : string) : Call :=
  mkCall PUT ("providers/proxies/" ++ encodeURIComponent name) [] NoPayload.
Definition updateProvider (name : string) := send (updateProvider_call name).

(** Lines 195-198. *)
Definition updateRuleProvider_call (name : string) : Call :=
  mkCall PUT ("providers/rules/" ++ encodeURIComponent name) [] NoPayload.
Definition updateRuleProvider (name : string) :=
  send (updateRuleProvider_call name).

(** Lines 200-203. *)
Definition healthCheckProvider_call (name : string) : Call :=
  mkCall GET
    ("providers/proxies/" ++ encodeURIComponent name ++ "/healthcheck")
    [] NoPayload.
Definition healthCheckProvider (name : string) :=
  send (healthCheckProvider_call name).

(** Lines 205-208. *)
Definition getProxies_call : Call := mkCall GET "proxies" [] NoPayload.
Definition getProxies := send getProxies_call.

(** Lines 210-213. *)
Definition getProxy_call (name : string) : Call :=
  mkCall GET ("proxies/" ++ encodeURIComponent name) [] NoPayload.
Definition getProxy (name : string) := send (getProxy_call name).

(** Lines 220-228. *)
Definition getProxyDelay_call (name : string) : Call :=
  mkCall GET ("proxies/" ++ encodeURIComponent name ++ "/delay")
    [("timeout", PNum 5000);
     ("url", PStr "http://www.gstatic.com/generate_204")]
    NoPayload.
Definition getProxyDelay (name : string) := send (getProxyDelay_call name).

(** Lines 230-233. *)
Definition closeAllConnections_call : Call :=
  mkCall DELETE "connections" [] NoPayload.
Definition closeAllConnections := send closeAllConnections_call.

(** Lines 235-238: the identifier is spliced in as it is. *)
Definition closeConnection_call (id : string) : Call :=
  mkCall DELETE ("connections/" ++ id) [] NoPayload.
Definition closeConnection (id : string) := send (closeConnection_call id).

(** Lines 240-243. *)
Definition getConnections_call : Call :=
  mkCall GET "connections" [] NoPayload.
Definition getConnections := send getConnections_call.

(** Lines 245-248. *)
Definition changeProxySelected_call (name select : string) : Call :=
  mkCall PUT ("proxies/" ++ encodeURIComponent name) [] (NamePayload select).
Definition changeProxySelected (name select : string) :=
  send (changeProxySelected_call name select).

End Wrappers.

End Rest.

(* ------------------------------------------------------------------ *)
(** ** Further surroundings *)

Module Surroundings.

Import Fixtures.

(** A page opened as [?host=] while local storage holds an address. *)
Definition env_empty_host : Env :=
  mkEnv None None no_url
        (fun key => if key =? "host" then Some "" else None)
        (fun key d =>
           if key =? "externalControllerAddr" then "192.168.1.2" else d)
        "https:".

(** A page whose meta element names the controller. *)
Definition meta_url : string := "https://s3cret@example.com:9443".

Definition env_meta : Env :=
  mkEnv None (Some meta_url)
        (fun s => if s =? meta_url
                  then Ok (mkURL "https:" "s3cret" "example.com" "9443")
                  else Throw invalid_url)
        (fun _ => None) (fun _ d => d) "http:".

(** The same page opened as [?protocol=]. *)
Definition env_meta_empty_protocol : Env :=
  mkEnv None (Some meta_url) (URL_new env_meta)
        (fun key => if key =? "protocol" then Some "" else None)
        (fun _ d => d) "http:".

(** A page whose meta element still holds the build placeholder. *)
Definition env_placeholder : Env :=
  mkEnv None (Some "__EXTERNAL_CONTROLLER__") no_url
        (fun _ => None) (fun _ d => d) "https:".

(** The ClashX runtime with a working bridge. *)
Definition env_clashx : Env :=
  mkEnv (Some (Ok (mkAPIInfo "127.0.0.1" "53000" "abc")))
        (Some meta_url) no_url remote_params (fun _ d => d) "https:".

(** The same runtime on a bare page. *)
Definition env_clashx_bare : Env :=
  mkEnv (clashX env_clashx) None no_url (fun _ => None)
        (fun _ d => d) "file:".

(** A daemon that answers every request with an internal error. *)
Definition daemon_broken : Daemon :=
  mkDaemon
    (fun _ => Ok (Axios.mkResponse 500 config0))
    (fun _ => Ok (Axios.mkResponse 500 (Models.mkVersion "" None)))
    (fun _ => Ok (Axios.mkResponse 500 (Models.mkProxyProviders []))).

(** A transport that answers every request with [204 No Content]. *)
Definition transport_ok (_ : Axios.Instance) (_ : Rest.Call)
  : Result (Axios.Response unit) :=
  Ok (Axios.mkResponse 204 tt).

End Surroundings.

(* ------------------------------------------------------------------ *)
(** ** Facts about the JavaScript operators *)

Lemma truthy_false_iff (s : string) : truthy s = false <-> s = "".
Proof.
  unfold truthy. destruct (String.eqb_spec s ""); simpl; split; congruence.
Qed.

Lemma truthy_true_iff (s : string) : truthy s = true <-> s <> "".
Proof.
  unfold truthy. destruct (String.eqb_spec s ""); simpl; split; congruence.
Qed.

(* ------------------------------------------------------------------ *)
(** ** The endpoint resolver *)

Module ResolverFacts.

Import Fixtures.

(** The guard of line 127 in terms of the two strings. *)
Lemma guard_spec (h p : string) :
  negb (truthy h) || negb (truthy p) = true <-> h = "" \/ p = "".
Proof.
  rewrite orb_true_iff, !negb_true_iff, !truthy_false_iff. reflexivity.
Qed.

(** Outside ClashX, once the page's URL is settled, the body is the guard
    followed by the record. *)
Lemma browser_branch (env : Env) (url : option URL) :
  clashX env = None ->
  page_url env = Ok url ->
  getExternalControllerConfig env =
    if negb (truthy (resolve_hostname env url))
       || negb (truthy (resolve_port env url))
    then Throw cant_get
    else Ok {| hostname := resolve_hostname env url;
               port := resolve_port env url;
               secret := resolve_secret env url;
               protocol :=
                 resolve_protocol env url (resolve_hostname env url) |}.
Proof.
  intros Hx Hu. unfold getExternalControllerConfig.
  rewrite Hx, Hu. reflexivity.
Qed.

(** A rejected meta URL aborts the resolver before any hostname or port is
    looked at. *)
Lemma bad_meta_throws :
  getExternalControllerConfig env_bad_meta = Throw invalid_url.
Proof. reflexivity. Qed.

(** Under ClashX the bridge's answer is returned unchecked. *)
Lemma clashx_unchecked (env : Env) (info : APIInfo) :
  clashX env = Some (Ok info) ->
  getExternalControllerConfig env =
    Ok (mkECC (info_host info) (info_port info) (info_secret info) "http:").
Proof.
  intros Hx. unfold getExternalControllerConfig. rewrite Hx. reflexivity.
Qed.

(** C6, as the specification words it: the resolver throws exactly when the
    hostname or port resolved from search parameters, local storage, page
    metadata or defaults is empty.  This fails in the ClashX runtime, where
    a failing bridge call makes the resolver throw although none of these
    sources yields an empty hostname or port. *)
Lemma throws_iff_empty_fails :
  ~ (forall env : Env,
       is_throw (getExternalControllerConfig env) = true <->
       exists url, page_url env = Ok url /\
         (resolve_hostname env url = "" \/ resolve_port env url = "")).
Proof.
  intros H. destruct (H env_clashx_failed) as [Hthrow _].
  destruct (Hthrow eq_refl) as [url [Hu [Hh | Hp]]];
    injection Hu as <-; discriminate.
Qed.

(** C6, amended: when the page does not run inside ClashX and its meta URL,
    if any, is accepted by the [URL] constructor, the resolver throws if and
    only if the resolved hostname or port is empty, and otherwise returns
    the record of hostname, port, secret and protocol. *)
Theorem throws_iff_empty (env : Env) (url : option URL) :
  clashX env = None ->
  page_url env = Ok url ->
  (is_throw (getExternalControllerConfig env) = true <->
   resolve_hostname env url = "" \/ resolve_port env url = "")
  /\ (getExternalControllerConfig env = Throw cant_get \/
      getExternalControllerConfig env =
        Ok {| hostname := resolve_hostname env url;
              port := resolve_port env url;
              secret := resolve_secret env url;
              protocol :=
                resolve_protocol env url (resolve_hostname env url) |}).
Proof.
  intros Hx Hu. rewrite (browser_branch env url Hx Hu).
  rewrite <- guard_spec.
  destruct (negb (truthy (resolve_hostname env url))
            || negb (truthy (resolve_port env url))); simpl.
  - split; [tauto | now left].
  - split; [split; discriminate | now right].
Qed.

Lemma throws_iff_empty_witness :
  (is_throw (getExternalControllerConfig env_default) = true <->
   resolve_hostname env_default None = ""
   \/ resolve_port env_default None = "")
  /\ (getExternalControllerConfig env_default = Throw cant_get \/
      getExternalControllerConfig env_default =
        Ok (mkECC "127.0.0.1" "9090" "" "http:")).
Proof.
  exact (throws_iff_empty env_default None eq_refl eq_refl).
Defined.

(** C9: outside ClashX, a non-empty [protocol] search parameter only makes
    the condition of the ternary truthy; the resolved protocol is the
    literal ['http:'] whatever the parameter says. *)
Theorem protocol_param_ignored (env : Env) (s : string) :
  clashX env = None ->
  getSearchParam env "protocol" = Some s ->
  s <> "" ->
  (forall url h, resolve_protocol env url h = "http:")
  /\ (forall c, getExternalControllerConfig env = Ok c ->
                protocol c = "http:").
Proof.
  intros Hx Hs Hne.
  assert (Hp : forall url h, resolve_protocol env url h = "http:").
  { intros url h. unfold resolve_protocol. rewrite Hs. simpl.
    apply truthy_true_iff in Hne. rewrite Hne. reflexivity. }
  split; [exact Hp |].
  intros c Hc. unfold getExternalControllerConfig in Hc. rewrite Hx in Hc.
  destruct (page_url env) as [url | e]; simpl in Hc; [| discriminate].
  destruct (negb (truthy (resolve_hostname env url))
            || negb (truthy (resolve_port env url))); [discriminate |].
  injection Hc as <-. simpl. apply Hp.
Qed.

Lemma protocol_param_ignored_witness :
  getExternalControllerConfig env_remote =
    Ok (mkECC "192.168.1.2" "9090" "s3cret" "http:")
  /\ protocol (mkECC "192.168.1.2" "9090" "s3cret" "http:") = "http:".
Proof.
  split; [reflexivity |].
  apply (proj2 (protocol_param_ignored env_remote "https:"
                  eq_refl eq_refl ltac:(discriminate))).
  reflexivity.
Defined.

End ResolverFacts.

(* ------------------------------------------------------------------ *)
(** ** The once-only initializer *)

Module SingletonFacts.

Import AsyncSingleton.
Local Open Scope list_scope.

Section Holder.

Context {T : Type}.
Variable factory : nat -> Result T.

Lemma run_snoc (s : State T) (evs : list Event) (ev : Event) :
  run factory s (evs ++ [ev]) = step factory (run factory s evs) ev.
Proof. unfold AsyncSingleton.run. now rewrite fold_left_app. Qed.

Lemma callers_snoc_call (evs : list Event) (c : Caller) :
  callers (evs ++ [Call c]) = callers evs ++ [c].
Proof. unfold callers. now rewrite flat_map_app. Qed.

Lemma callers_snoc_settle (evs : list Event) :
  callers (evs ++ [Settle]) = callers evs.
Proof. unfold callers. rewrite flat_map_app. simpl. apply app_nil_r. Qed.

Lemma consistent_init : consistent factory [] init.
Proof.
  unfold AsyncSingleton.consistent; simpl. repeat split; auto.
Qed.

(** A call preserves consistency. *)
Lemma consistent_call (evs : list Event) (s : State T) (c : Caller) :
  consistent factory evs s ->
  consistent factory (evs ++ [Call c]) (step factory s (Call c)).
Proof.
  unfold AsyncSingleton.consistent, waiting.
  intros (Hn & Hu & Hall & Hcell & Hacc).
  rewrite callers_snoc_call, length_app, Nat.add_1_r.
  destruct s as [cl n d]; cbn [cell invocations delivered] in *.
  assert (Hn' : cl <> Unresolved -> n = Nat.min 1 (S (length (callers evs)))).
  { intros Hcl. destruct n as [| n]; [now destruct Hcl; apply Hu |].
    rewrite Hn. destruct (length (callers evs)); [discriminate | reflexivity]. }
  assert (Hu' : forall cl' : Cell T, cl <> Unresolved -> cl' <> Unresolved ->
                            (cl' = Unresolved <-> n = 0)).
  { intros cl' Hcl Hcl'. split; [intros E; now destruct Hcl' |].
    intros E. apply Hu in E. now destruct Hcl. }
  destruct cl as [| p ws | v | e];
    cbn [AsyncSingleton.step cell invocations delivered].
  - assert (n = 0) by (now apply Hu). subst n d.
    simpl in Hacc. rewrite <- Hacc. simpl.
    repeat split; try discriminate; auto.
  - destruct Hcell as [-> ->].
    split; [apply Hn'; discriminate |].
    split; [apply Hu'; discriminate |].
    repeat split; auto.
    simpl in *. now rewrite Hacc.
  - split; [apply Hn'; discriminate |].
    split; [apply Hu'; discriminate |].
    split; [| split; [exact Hcell |]].
    + apply Forall_app; split; auto. constructor; [| constructor].
      simpl. destruct (factory 0); simpl in Hcell; congruence.
    + rewrite app_nil_r in *. rewrite map_app, Hacc. reflexivity.
  - split; [apply Hn'; discriminate |].
    split; [apply Hu'; discriminate |].
    split; [| split; [exact Hcell |]].
    + apply Forall_app; split; auto. constructor; [| constructor].
      simpl. destruct (factory 0); simpl in Hcell; congruence.
    + rewrite app_nil_r in *. rewrite map_app, Hacc. reflexivity.
Qed.

(** A settlement preserves consistency. *)
Lemma consistent_settle (evs : list Event) (s : State T) :
  consistent factory evs s ->
  consistent factory (evs ++ [Settle]) (step factory s Settle).
Proof.
  unfold AsyncSingleton.consistent, waiting.
  intros (Hn & Hu & Hall & Hcell & Hacc).
  rewrite callers_snoc_settle.
  destruct s as [cl n d]; cbn [cell invocations delivered] in *.
  destruct cl as [| p ws | v | e];
    cbn [AsyncSingleton.step cell invocations delivered]; auto.
  destruct Hcell as [-> ->]. simpl in Hacc.
  split; [exact Hn |].
  split.
  { split; [destruct (factory 0); discriminate |].
    intros E. apply Hu in E. discriminate. }
  split.
  { apply Forall_forall. intros [c o] Hin.
    apply in_map_iff in Hin. destruct Hin as (c' & E & _).
    now injection E as _ <-. }
  split; [destruct (factory 0); reflexivity |].
  simpl. rewrite map_map. simpl. rewrite map_id.
  destruct (factory 0); simpl; rewrite app_nil_r; exact Hacc.
Qed.

(** Every state reached from [init] is consistent with its trace. *)
Lemma reachable_consistent (evs : list Event) :
  consistent factory evs (run factory init evs).
Proof.
  induction evs as [| ev evs IH] using rev_ind.
  - apply consistent_init.
  - rewrite run_snoc. destruct ev as [c |].
    + now apply consistent_call.
    + now apply consistent_settle.
Qed.

(** Once failed, the holder answers every later call with the cached
    failure and does nothing else. *)
Lemma run_failed (s : State T) (e : Error) (evs : list Event) :
  cell s = Failed e ->
  run factory s evs =
    mkState (Failed e) (invocations s)
            (delivered s ++ map (fun c => (c, Throw e)) (callers evs)).
Proof.
  revert s. induction evs as [| ev evs IH]; intros [cl n d] Hc;
    simpl in Hc; subst cl.
  - simpl. now rewrite app_nil_r.
  - change (run factory ?s (ev :: evs))
      with (run factory (step factory s ev) evs).
    destruct ev as [c |]; rewrite IH by reflexivity; simpl;
      [now rewrite <- app_assoc | reflexivity].
Qed.

(** Once resolved, the holder answers every later call with the cached
    value and does nothing else. *)
Lemma run_resolved (s : State T) (v : T) (evs : list Event) :
  cell s = Resolved v ->
  run factory s evs =
    mkState (Resolved v) (invocations s)
            (delivered s ++ map (fun c => (c, Ok v)) (callers evs)).
Proof.
  revert s. induction evs as [| ev evs IH]; intros [cl n d] Hc;
    simpl in Hc; subst cl.
  - simpl. now rewrite app_nil_r.
  - change (run factory ?s (ev :: evs))
      with (run factory (step factory s ev) evs).
    destruct ev as [c |]; rewrite IH by reflexivity; simpl;
      [now rewrite <- app_assoc | reflexivity].
Qed.

(** The value a caller obtains by awaiting the wrapped function is among
    the outcomes the holder has delivered to it. *)
Lemma get_delivered (c : Caller) (s : State T) :
  In (c, fst (get factory c s)) (delivered (snd (get factory c s))).
Proof.
  unfold get. destruct s as [cl n d]; simpl.
  destruct cl as [| p ws | v | e]; unfold AsyncSingleton.step; simpl;
    apply in_or_app; right; simpl; auto.
  apply in_map_iff. exists c. split; auto. apply in_or_app; right; simpl; auto.
Qed.

End Holder.

(** C2: over any trace of calls and settlements of a wrapped function,
    concurrent calls before the first settlement included, the factory is
    invoked exactly once as soon as anybody has called; every outcome
    delivered is that of this single invocation, a delivered value is the
    cached one, and every caller is answered or still waiting.  In
    particular two calls of [getLogsStreamReader] that arrive before the
    factory settles receive the same reader. *)
Theorem factory_invoked_once :
  (forall (T : Type) (factory : nat -> Result T) (evs : list Event),
     let s := run factory init evs in
     invocations s <= 1
     /\ (callers evs <> [] -> invocations s = 1)
     /\ (forall c o, In (c, o) (delivered s) -> o = factory 0)
     /\ (forall c v, In (c, Ok v) (delivered s) -> cell s = Resolved v)
     /\ map fst (delivered s) ++ waiting s = callers evs)
  /\ (forall (env : Env) (daemon : Daemon) (Log : Type)
        (worlds : nat -> State Axios.Instance) (a b : Caller),
       let s := @Request.getLogsStreamReader env daemon Log worlds
                  [Call a; Call b; Settle] in
       invocations s = 1
       /\ exists o, delivered s = [(a, o); (b, o)]).
Proof.
  split.
  - intros T factory evs s.
    destruct (reachable_consistent factory evs)
      as (Hn & Hu & Hall & Hcell & Hacc).
    fold s in Hn, Hu, Hall, Hcell, Hacc.
    split; [rewrite Hn; apply Nat.le_min_l |].
    split.
    { intros Hne. rewrite Hn.
      destruct (callers evs); [congruence | reflexivity]. }
    split.
    { intros c o Hin. rewrite Forall_forall in Hall.
      exact (Hall _ Hin). }
    split; [| exact Hacc].
    intros c v Hin. rewrite Forall_forall in Hall.
    pose proof (Hall _ Hin) as Ho. simpl in Ho.
    destruct (cell s) as [| p ws | v' | e].
    + rewrite Hcell in Hin. destruct Hin.
    + destruct Hcell as [_ Hd]. rewrite Hd in Hin. destruct Hin.
    + rewrite Hcell, <- Ho. reflexivity.
    + rewrite Hcell, <- Ho. reflexivity.
  - intros env daemon Log worlds a b s. split; [reflexivity |].
    eexists. reflexivity.
Qed.

Lemma factory_invoked_once_witness :
  invocations
    (run (fun k => Ok k) init [Call 1; Call 2; Settle; Call 3]) = 1.
Proof.
  apply (proj1 factory_invoked_once nat (fun k => Ok k)
           [Call 1; Call 2; Settle; Call 3]).
  discriminate.
Defined.

(** C8: when the operation in flight settles with a failure, every caller
    waiting on it receives that failure; from then on, whatever happens,
    the holder stays failed, the factory is not invoked again, and every
    later call receives the same cached failure. *)
Theorem failure_cached {T : Type} (factory : nat -> Result T)
  (s0 : State T) (e : Error) (ws : list Caller) (later : list Event) :
  cell s0 = InFlight (Throw e) ws ->
  let s1 := step factory s0 Settle in
  let s2 := run factory s1 later in
  delivered s1 = delivered s0 ++ map (fun c => (c, Throw e)) ws
  /\ cell s2 = Failed e
  /\ invocations s2 = invocations s0
  /\ delivered s2 =
       delivered s1 ++ map (fun c => (c, Throw e)) (callers later).
Proof.
  intros Hc s1 s2.
  assert (H1 : s1 = mkState (Failed e) (invocations s0)
                      (delivered s0 ++ map (fun c => (c, Throw e)) ws)).
  { unfold s1, step. rewrite Hc. reflexivity. }
  assert (H2 : s2 = mkState (Failed e) (invocations s1)
                      (delivered s1
                       ++ map (fun c => (c, Throw e)) (callers later))).
  { unfold s2. apply run_failed. rewrite H1. reflexivity. }
  rewrite H2. simpl. rewrite H1. simpl. auto.
Qed.

Lemma failure_cached_witness :
  cell (run Fixtures.failing
          (step Fixtures.failing
             (run Fixtures.failing init [Call 1; Call 2]) Settle)
          [Call 3; Settle; Call 4])
  = Failed Fixtures.boom.
Proof.
  exact (proj1 (proj2 (failure_cached Fixtures.failing
                         (run Fixtures.failing init [Call 1; Call 2])
                         Fixtures.boom [1; 2] [Call 3; Settle; Call 4]
                         eq_refl))).
Defined.

End SingletonFacts.

(* ------------------------------------------------------------------ *)
(** ** The bounded buffer of the stream reader *)

Module StreamerFacts.

Import Streamer.
Local Open Scope list_scope.

Section Buffer.

Context {T : Type}.

Lemma feed_snoc (sr : StreamReader T) (rs : list T) (r : T) :
  feed sr (rs ++ [r]) = produce (feed sr rs) r.
Proof. unfold feed. now rewrite fold_left_app. Qed.

Lemma combine_seq_snoc (start : nat) (rs : list T) (r : T) :
  combine (seq start (length rs) ++ [start + length rs]) (rs ++ [r]) =
  combine (seq start (length rs)) rs ++ [(start + length rs, r)].
Proof.
  revert start. induction rs as [| x rs IH]; intros start; simpl.
  - reflexivity.
  - rewrite <- Nat.add_succ_comm, IH. reflexivity.
Qed.

Lemma stamped_snoc (rs : list T) (r : T) :
  stamped (rs ++ [r]) = stamped rs ++ [(length rs, r)].
Proof.
  unfold stamped. rewrite length_app, Nat.add_1_r, seq_S.
  apply combine_seq_snoc.
Qed.

Lemma length_stamped (rs : list T) : length (stamped rs) = length rs.
Proof.
  unfold stamped. rewrite length_combine, length_seq. apply Nat.min_id.
Qed.

Lemma map_snd_stamped (rs : list T) : map snd (stamped rs) = rs.
Proof.
  unfold stamped. generalize 0 as start.
  induction rs as [| x rs IH]; intros start; simpl; [| rewrite IH]; auto.
Qed.

Lemma tl_skipn {A : Type} (n : nat) (l : list A) :
  tl (skipn n l) = skipn (S n) l.
Proof.
  revert l. induction n as [| n IH]; intros [| x l]; simpl; auto.
Qed.

(** The state of a fresh reader after the records [rs]: the buffer is the
    last [bufferLength] of them under their sequence numbers. *)
Lemma feed_new (cfg : Config) (rs : list T) :
  0 < bufferLength cfg ->
  feed (new cfg) rs =
    mkReader cfg
      (skipn (length rs - bufferLength cfg) (stamped rs))
      (length rs).
Proof.
  intros HB. induction rs as [| r rs IH] using rev_ind; [reflexivity |].
  rewrite feed_snoc, IH. unfold produce. simpl.
  rewrite length_skipn, length_stamped, stamped_snoc, length_app, Nat.add_1_r.
  f_equal.
  destruct (Nat.leb_spec (bufferLength cfg)
              (length rs - (length rs - bufferLength cfg))) as [Hfull | Hroom].
  - rewrite tl_skipn, skipn_app, length_stamped.
    replace (S (length rs) - bufferLength cfg)
      with (S (length rs - bufferLength cfg)) by lia.
    replace (S (length rs - bufferLength cfg) - length rs) with 0 by lia.
    reflexivity.
  - replace (length rs - bufferLength cfg) with 0 by lia.
    replace (S (length rs) - bufferLength cfg) with 0 by lia.
    reflexivity.
Qed.

End Buffer.

(** C7: a reader of capacity [B] never buffers more than [B] records, at
    any point of the production; a record arriving at capacity displaces
    the oldest one; and once more than [B] records have been produced the
    buffer holds exactly the [B] most recent ones in production order. *)
Theorem buffer_keeps_most_recent {T : Type} (cfg : Config) (rs : list T) :
  0 < bufferLength cfg ->
  let B := bufferLength cfg in
  let sr := feed (new cfg) rs in
  (forall n, length (buffer (feed (new cfg) (firstn n rs))) <= B)
  /\ (forall r, length (buffer sr) = B ->
        buffer (produce sr r) = tl (buffer sr) ++ [(next_seq sr, r)])
  /\ (B < length rs ->
        length (buffer sr) = B
        /\ records sr = skipn (length rs - B) rs).
Proof.
  intros HB B sr. split; [| split].
  - intros n. rewrite feed_new by exact HB. simpl.
    rewrite length_skipn, length_stamped. fold B. lia.
  - intros r. unfold sr, produce. rewrite feed_new by exact HB.
    cbn [config buffer next_seq]. intros Hfull. rewrite Hfull.
    unfold B. now rewrite Nat.leb_refl.
  - intros HM. unfold sr, records. rewrite feed_new by exact HB. simpl.
    rewrite length_skipn, length_stamped, <- skipn_map, map_snd_stamped.
    fold B. split; [lia | reflexivity].
Qed.

Lemma buffer_keeps_most_recent_witness :
  records (feed (new (mkConfig "ws://127.0.0.1:9090/logs" 3 "" true))
             ["A"; "B"; "C"; "D"]%string)
  = ["B"; "C"; "D"]%string.
Proof.
  apply (buffer_keeps_most_recent
           (mkConfig "ws://127.0.0.1:9090/logs" 3 "" true)
           ["A"; "B"; "C"; "D"]%string); simpl; lia.
Defined.

End StreamerFacts.

(* ------------------------------------------------------------------ *)
(** ** The REST wrappers and the stream factories *)

Module RequestFacts.

Import Streamer Request Fixtures.

(** [!!version || true] does not depend on [version]. *)
Lemma useWebsocket_of_true (version : string) : useWebsocket_of version = true.
Proof. unfold useWebsocket_of. apply orb_true_r. Qed.

(** The pair built by [to] always yields a version string: the daemon's on
    success, the placeholder on failure. *)
Lemma probe_version (env : Env) (daemon : Daemon)
  (s : AsyncSingleton.State Axios.Instance) :
  exists version,
    abind (to (getVersion env daemon)) (fun p => lift (version_of p)) s
    = (Ok version, snd (getVersion env daemon s)).
Proof.
  unfold abind, to, lift.
  destruct (getVersion env daemon s) as [[resp | e] s']; simpl;
    eexists; reflexivity.
Qed.

(** The logs factory, run: once the endpoint is resolved and the daemon's
    configuration fetched, it returns a fresh reader whatever the version
    probe does. *)
Lemma logs_factory_run (env : Env) (daemon : Daemon) (Log : Type)
  (s s1 : AsyncSingleton.State Axios.Instance)
  (c : ExternalControllerConfig) (resp : Axios.Response Models.Config) :
  getExternalControllerConfig env = Ok c ->
  getConfig env daemon s = (Ok resp, s1) ->
  @getLogsStreamReader_factory env daemon Log s =
    (Ok (Streamer.new
           (mkConfig (logs_url c (Models.log_level (Axios.data resp)))
                     200 (secret c) true)),
     snd (getVersion env daemon s1)).
Proof.
  intros Hc Hcfg. unfold getLogsStreamReader_factory.
  unfold abind at 1. unfold lift at 1. rewrite Hc.
  unfold abind at 1. rewrite Hcfg.
  unfold abind, to, lift, ret.
  destruct (getVersion env daemon s1) as [[v | e] s2]; simpl;
    rewrite ?useWebsocket_of_true; reflexivity.
Qed.

(** The connections factory, run. *)
Lemma connections_factory_run (env : Env) (daemon : Daemon)
  (s : AsyncSingleton.State Axios.Instance)
  (c : ExternalControllerConfig) :
  getExternalControllerConfig env = Ok c ->
  getConnectionStreamReader_factory env daemon s =
    (Ok (Streamer.new (mkConfig (connections_url c) 200 (secret c) true)),
     snd (getVersion env daemon s)).
Proof.
  intros Hc. unfold getConnectionStreamReader_factory.
  unfold abind at 1. unfold lift at 1. rewrite Hc.
  unfold abind, to, lift, ret.
  destruct (getVersion env daemon s) as [[v | e] s2]; simpl;
    rewrite ?useWebsocket_of_true; reflexivity.
Qed.

(** A reader returned by the logs factory comes from a resolved endpoint
    and a fetched configuration. *)
Lemma logs_factory_inv (env : Env) (daemon : Daemon) (Log : Type)
  (s s' : AsyncSingleton.State Axios.Instance) (sr : StreamReader Log) :
  @getLogsStreamReader_factory env daemon Log s = (Ok sr, s') ->
  exists c resp s1,
    getExternalControllerConfig env = Ok c
    /\ getConfig env daemon s = (Ok resp, s1).
Proof.
  unfold getLogsStreamReader_factory.
  unfold abind at 1. unfold lift at 1.
  destruct (getExternalControllerConfig env) as [c | e]; [| discriminate].
  unfold abind at 1.
  destruct (getConfig env daemon s) as [[resp | e] s1]; [| discriminate].
  intros _. now exists c, resp, s1.
Qed.

Lemma connections_factory_inv (env : Env) (daemon : Daemon)
  (s s' : AsyncSingleton.State Axios.Instance)
  (sr : StreamReader Models.Snapshot) :
  getConnectionStreamReader_factory env daemon s = (Ok sr, s') ->
  exists c, getExternalControllerConfig env = Ok c.
Proof.
  unfold getConnectionStreamReader_factory.
  unfold abind at 1. unfold lift at 1.
  destruct (getExternalControllerConfig env) as [c | e]; [| discriminate].
  intros _. now exists c.
Qed.

(** C1: whatever the version probe yields, success with any version
    string or failure, the [useWebsocket] flag given to the [StreamReader]
    constructor by either factory is [true]. *)
Theorem websocket_always_preferred :
  (forall version : string, useWebsocket_of version = true)
  /\ (forall probe version,
        version_of probe = Ok version -> useWebsocket_of version = true)
  /\ (forall env daemon Log s sr s',
        @getLogsStreamReader_factory env daemon Log s = (Ok sr, s') ->
        useWebsocket (config sr) = true)
  /\ (forall env daemon s sr s',
        getConnectionStreamReader_factory env daemon s = (Ok sr, s') ->
        useWebsocket (config sr) = true).
Proof.
  split; [exact useWebsocket_of_true |].
  split; [intros; apply useWebsocket_of_true |].
  split.
  - intros env daemon Log s sr s' H.
    destruct (logs_factory_inv _ _ _ _ _ _ H) as (c & resp & s1 & Hc & Hcfg).
    rewrite (logs_factory_run _ _ Log _ _ _ _ Hc Hcfg) in H.
    injection H as <- _. reflexivity.
  - intros env daemon s sr s' H.
    destruct (connections_factory_inv _ _ _ _ _ H) as (c & Hc).
    rewrite (connections_factory_run _ _ s _ Hc) in H.
    injection H as <- _. reflexivity.
Qed.

Lemma websocket_always_preferred_witness :
  (forall sr s',
     @getLogsStreamReader_factory env_default daemon_ok unit fresh
       = (Ok sr, s') ->
     useWebsocket (config sr) = true)
  /\ fst (@getLogsStreamReader_factory env_default daemon_old unit fresh)
     = Ok (Streamer.new
             (mkConfig "http://127.0.0.1:9090/logs?level=info" 200 "" true)).
Proof.
  split; [| reflexivity].
  intros sr s'.
  apply (proj1 (proj2 (proj2 websocket_always_preferred))
           env_default daemon_ok unit fresh sr s').
Defined.

(** C3, as the specification words it: after a failed probe the version is
    the string ["version unknown"].  The placeholder in the code is another
    string. *)
Lemma version_unknown_fails :
  fst (getVersion env_default daemon_old fresh) = Throw Axios.bad_status
  /\ fst (abind (to (getVersion env_default daemon_old))
            (fun p => lift (version_of p)) fresh)
     <> Ok "version unknown".
Proof. split; [reflexivity | discriminate]. Qed.

(** C3, amended: when the version probe fails inside either factory, the
    failure is absorbed and the factory still returns a reader; the version
    is then represented by one fixed non-empty placeholder string, the same
    for every failure, every page and every daemon. *)
Theorem probe_failure_absorbed :
  exists placeholder : string,
    placeholder <> ""
    /\ forall (env : Env) (daemon : Daemon),
         (forall Log s c resp s1 e s2,
            getExternalControllerConfig env = Ok c ->
            getConfig env daemon s = (Ok resp, s1) ->
            getVersion env daemon s1 = (Throw e, s2) ->
            exists sr,
              @getLogsStreamReader_factory env daemon Log s = (Ok sr, s2))
         /\ (forall s c e s2,
               getExternalControllerConfig env = Ok c ->
               getVersion env daemon s = (Throw e, s2) ->
               exists sr,
                 getConnectionStreamReader_factory env daemon s
                 = (Ok sr, s2))
         /\ (forall s e s2,
               getVersion env daemon s = (Throw e, s2) ->
               abind (to (getVersion env daemon))
                 (fun p => lift (version_of p)) s
               = (Ok placeholder, s2)).
Proof.
  exists "unkonwn version". split; [discriminate |].
  intros env daemon. split; [| split].
  - intros Log s c resp s1 e s2 Hc Hcfg Hv.
    rewrite (logs_factory_run _ _ Log _ _ _ _ Hc Hcfg), Hv.
    eexists. reflexivity.
  - intros s c e s2 Hc Hv.
    rewrite (connections_factory_run _ _ s _ Hc), Hv.
    eexists. reflexivity.
  - intros s e s2 Hv. unfold abind, to, lift. rewrite Hv. reflexivity.
Qed.

Lemma probe_failure_absorbed_witness :
  exists sr,
    @getLogsStreamReader_factory env_default daemon_old unit fresh
    = (Ok sr, snd (getVersion env_default daemon_old
                     (snd (getConfig env_default daemon_old fresh)))).
Proof.
  destruct probe_failure_absorbed as (placeholder & _ & H).
  apply (proj1 (H env_default daemon_old)
           unit fresh (mkECC "127.0.0.1" "9090" "" "http:")
           (Axios.mkResponse 200 config0)
           (snd (getConfig env_default daemon_old fresh))
           Axios.bad_status);
    reflexivity.
Defined.

(** C4: for every resolved endpoint and every log level obtained from
    [getConfig], the logs reader is constructed with the URL
    [<protocol>//<hostname>:<port>/logs?level=<log-level>] and the
    connections reader with [<protocol>//<hostname>:<port>/connections]. *)
Theorem stream_urls (env : Env) (daemon : Daemon)
  (c : ExternalControllerConfig) :
  getExternalControllerConfig env = Ok c ->
  (forall Log s resp s1,
     getConfig env daemon s = (Ok resp, s1) ->
     exists sr s2,
       @getLogsStreamReader_factory env daemon Log s = (Ok sr, s2)
       /\ url (config sr) =
            protocol c ++ "//" ++ hostname c ++ ":" ++ port c
            ++ "/logs?level=" ++ Models.log_level (Axios.data resp))
  /\ (forall s,
        exists sr s2,
          getConnectionStreamReader_factory env daemon s = (Ok sr, s2)
          /\ url (config sr) =
               protocol c ++ "//" ++ hostname c ++ ":" ++ port c
               ++ "/connections").
Proof.
  intros Hc. split.
  - intros Log s resp s1 Hcfg.
    rewrite (logs_factory_run _ _ Log _ _ _ _ Hc Hcfg).
    do 2 eexists. split; reflexivity.
  - intros s. rewrite (connections_factory_run _ _ s _ Hc).
    do 2 eexists. split; reflexivity.
Qed.

Lemma stream_urls_witness :
  exists sr s2,
    getConnectionStreamReader_factory env_remote daemon_ok fresh = (Ok sr, s2)
    /\ url (config sr) = "http://192.168.1.2:9090/connections".
Proof.
  exact (proj2 (stream_urls env_remote daemon_ok
                  (mkECC "192.168.1.2" "9090" "s3cret" "http:") eq_refl)
           fresh).
Defined.

(** C5: whenever the endpoint (and, for logs, the daemon configuration) is
    resolved, both factories construct their reader with buffer length
    200, the endpoint's secret as token, and the websocket flag set. *)
Theorem stream_reader_options (env : Env) (daemon : Daemon)
  (c : ExternalControllerConfig) :
  getExternalControllerConfig env = Ok c ->
  (forall Log s resp s1,
     getConfig env daemon s = (Ok resp, s1) ->
     exists sr s2,
       @getLogsStreamReader_factory env daemon Log s = (Ok sr, s2)
       /\ bufferLength (config sr) = 200
       /\ token (config sr) = secret c
       /\ useWebsocket (config sr) = true)
  /\ (forall s,
        exists sr s2,
          getConnectionStreamReader_factory env daemon s = (Ok sr, s2)
          /\ bufferLength (config sr) = 200
          /\ token (config sr) = secret c
          /\ useWebsocket (config sr) = true).
Proof.
  intros Hc. split.
  - intros Log s resp s1 Hcfg.
    rewrite (logs_factory_run _ _ Log _ _ _ _ Hc Hcfg).
    do 2 eexists. repeat split; reflexivity.
  - intros s. rewrite (connections_factory_run _ _ s _ Hc).
    do 2 eexists. repeat split; reflexivity.
Qed.

Lemma stream_reader_options_witness :
  exists sr s2,
    @getLogsStreamReader_factory env_remote daemon_ok unit fresh = (Ok sr, s2)
    /\ bufferLength (config sr) = 200
    /\ token (config sr) = "s3cret"
    /\ useWebsocket (config sr) = true.
Proof.
  apply (proj1 (stream_reader_options env_remote daemon_ok
                  (mkECC "192.168.1.2" "9090" "s3cret" "http:") eq_refl)
           unit fresh (Axios.mkResponse 200 config0)
           (snd (getConfig env_remote daemon_ok fresh))).
  reflexivity.
Defined.

(** C10: [getProxyProviders] accepts status 404 and then replaces the
    response data by [{ providers: {} }]; a response with a status from 200
    to 299 is returned unchanged. *)
Theorem providers_not_found_compat (env : Env) (daemon : Daemon)
  (s s1 : AsyncSingleton.State Axios.Instance) (inst : Axios.Instance)
  (resp : Axios.Response Models.ProxyProviders) :
  getInstance env s = (Ok inst, s1) ->
  GET_providers_proxies daemon inst = Ok resp ->
  providers_validateStatus 404 = true
  /\ (Axios.status resp = 404%Z ->
      getProxyProviders env daemon s =
        (Ok (Axios.mkResponse 404 (Models.mkProxyProviders [])), s1))
  /\ ((200 <= Axios.status resp < 300)%Z ->
      getProxyProviders env daemon s = (Ok resp, s1)).
Proof.
  intros Hi Hd. split; [reflexivity |].
  unfold getProxyProviders, abind, lift, ret. rewrite Hi, Hd.
  unfold Axios.get, Axios.settle, providers_compat, providers_validateStatus.
  destruct resp as [status data]. cbn [Js.bind Axios.status]. split.
  - intros ->. reflexivity.
  - intros [Hlo Hhi].
    replace (200 <=? status)%Z with true by (symmetry; apply Z.leb_le; lia).
    replace (status <? 300)%Z with true by (symmetry; apply Z.ltb_lt; lia).
    rewrite orb_true_r. cbn [andb orb Axios.status].
    replace (status =? 404)%Z with false by (symmetry; apply Z.eqb_neq; lia).
    reflexivity.
Qed.

Lemma providers_not_found_compat_witness :
  fst (getProxyProviders env_default daemon_old fresh)
  = Ok (Axios.mkResponse 404 (Models.mkProxyProviders [])).
Proof.
  rewrite (proj1 (proj2 (providers_not_found_compat env_default daemon_old
                           fresh (snd (getInstance env_default fresh))
                           (Axios.mkInstance "http://127.0.0.1:9090" None)
                           (Axios.mkResponse 404 (Models.mkProxyProviders []))
                           eq_refl eq_refl)) eq_refl).
  reflexivity.
Defined.

End RequestFacts.

(* ------------------------------------------------------------------ *)
(** ** More on the endpoint resolver *)

Module ResolverMore.

Import Fixtures Surroundings.

(** X1: outside ClashX, a [host] or [port] search parameter that is
    present but empty is not replaced by local storage, the meta element or
    the defaults (the [??] operator only skips [null]), so the resolver
    always throws: the error of the [URL] constructor when it rejects the
    meta content, and "can't get hostname or port" otherwise. *)
Theorem empty_search_param_throws (env : Env) :
  clashX env = None ->
  getSearchParam env "host" = Some "" \/ getSearchParam env "port" = Some "" ->
  is_throw (getExternalControllerConfig env) = true
  /\ (forall e, page_url env = Throw e ->
                getExternalControllerConfig env = Throw e)
  /\ (forall url, page_url env = Ok url ->
                  getExternalControllerConfig env = Throw cant_get).
Proof.
  intros Hx Hempty.
  assert (Hbad : forall e, page_url env = Throw e ->
                           getExternalControllerConfig env = Throw e).
  { intros e He. unfold getExternalControllerConfig.
    now rewrite Hx, He. }
  assert (Hok : forall url, page_url env = Ok url ->
                            getExternalControllerConfig env = Throw cant_get).
  { intros url Hu.
    rewrite (ResolverFacts.browser_branch env url Hx Hu).
    assert (Hg : negb (truthy (resolve_hostname env url))
                 || negb (truthy (resolve_port env url)) = true).
    { apply ResolverFacts.guard_spec.
      unfold resolve_hostname, resolve_port.
      destruct Hempty as [H | H]; rewrite H; simpl; auto. }
    now rewrite Hg. }
  split; [| split; assumption].
  destruct (page_url env) as [url | e] eqn:Hu.
  - now rewrite (Hok url eq_refl).
  - now rewrite (Hbad e eq_refl).
Qed.

Lemma empty_search_param_throws_witness :
  getExternalControllerConfig env_empty_host = Throw cant_get.
Proof.
  apply (proj2 (proj2 (empty_search_param_throws env_empty_host eq_refl
                         (or_introl eq_refl)))
           None).
  reflexivity.
Defined.

(** X2: outside ClashX, non-empty [host] and [port] search parameters
    decide the hostname and port whatever local storage holds, and a
    [secret] parameter is taken as it is.  The meta element interferes in
    one way only: when the [URL] constructor rejects its content, the
    resolver throws that error in spite of the parameters. *)
Theorem search_params_take_precedence (env : Env) (h p : string) :
  clashX env = None ->
  getSearchParam env "host" = Some h ->
  getSearchParam env "port" = Some p ->
  h <> "" -> p <> "" ->
  (forall e, page_url env = Throw e ->
             getExternalControllerConfig env = Throw e)
  /\ (forall url, page_url env = Ok url ->
        exists c,
          getExternalControllerConfig env = Ok c
          /\ hostname c = h /\ port c = p
          /\ (forall k, getSearchParam env "secret" = Some k ->
                        secret c = k)).
Proof.
  intros Hx Hh Hp Hhne Hpne. split.
  - intros e He. unfold getExternalControllerConfig. now rewrite Hx, He.
  - intros url Hu.
    rewrite (ResolverFacts.browser_branch env url Hx Hu).
    assert (Eh : resolve_hostname env url = h)
      by (unfold resolve_hostname; now rewrite Hh).
    assert (Ep : resolve_port env url = p)
      by (unfold resolve_port; now rewrite Hp).
    rewrite Eh, Ep.
    apply truthy_true_iff in Hhne. apply truthy_true_iff in Hpne.
    rewrite Hhne, Hpne. simpl.
    eexists. split; [reflexivity |]. simpl. repeat split.
    intros k Hk. unfold resolve_secret. now rewrite Hk.
Qed.

Lemma search_params_take_precedence_witness :
  exists c,
    getExternalControllerConfig env_remote = Ok c
    /\ hostname c = "192.168.1.2" /\ port c = "9090"
    /\ (forall k, getSearchParam env_remote "secret" = Some k -> secret c = k).
Proof.
  apply (proj2 (search_params_take_precedence env_remote
                  "192.168.1.2" "9090" eq_refl eq_refl eq_refl
                  ltac:(discriminate) ltac:(discriminate))
           None).
  reflexivity.
Defined.

(** X3: inside ClashX the endpoint is the bridge's answer and nothing
    else: two pages with the same bridge outcome resolve alike whatever
    their search parameters, local storage, meta element and location; the
    protocol is ['http:']; a bridge failure is the resolver's failure. *)
Theorem clashx_only_reads_bridge (env1 env2 : Env) (r : Result APIInfo) :
  clashX env1 = Some r ->
  clashX env2 = Some r ->
  getExternalControllerConfig env1 = getExternalControllerConfig env2
  /\ (forall c, getExternalControllerConfig env1 = Ok c ->
                protocol c = "http:")
  /\ (forall e, r = Throw e -> getExternalControllerConfig env1 = Throw e).
Proof.
  intros H1 H2. unfold getExternalControllerConfig. rewrite H1, H2.
  split; [reflexivity |]. split.
  - intros c. destruct r as [info | e]; simpl; [| discriminate].
    now intros [= <-].
  - now intros e ->.
Qed.

Lemma clashx_only_reads_bridge_witness :
  getExternalControllerConfig env_clashx
  = getExternalControllerConfig env_clashx_bare.
Proof.
  exact (proj1 (clashx_only_reads_bridge env_clashx env_clashx_bare
                  (Ok (mkAPIInfo "127.0.0.1" "53000" "abc"))
                  eq_refl eq_refl)).
Defined.

(** X4: a meta element whose content does not start with [http:] or
    [https:] is ignored: the resolver answers as on a page without the
    element, and the [URL] constructor is never consulted. *)
Theorem unmatched_meta_ignored (env : Env) (content : string)
  (other_URL : string -> Result URL) :
  meta_content env = Some content ->
  matches_http content = false ->
  getExternalControllerConfig env =
  getExternalControllerConfig
    (mkEnv (clashX env) None other_URL (getSearchParam env)
           (getLocalStorageItem env) (location_protocol env)).
Proof.
  intros Hm Hno. unfold getExternalControllerConfig, page_url. simpl.
  rewrite Hm, Hno. reflexivity.
Qed.

Lemma unmatched_meta_ignored_witness :
  getExternalControllerConfig env_placeholder =
  getExternalControllerConfig env_default.
Proof.
  exact (unmatched_meta_ignored env_placeholder "__EXTERNAL_CONTROLLER__"
           no_url eq_refl eq_refl).
Defined.

(** X5: without a [protocol] search parameter the loopback address
    ['127.0.0.1'] forces ['http:'] and any other hostname takes the
    protocol of the meta URL, or else of the page; an empty [protocol]
    parameter switches the loopback rule off. *)
Theorem protocol_without_param (env : Env) (url : option URL)
  (c : ExternalControllerConfig) :
  clashX env = None ->
  page_url env = Ok url ->
  getExternalControllerConfig env = Ok c ->
  (getSearchParam env "protocol" = None ->
   hostname c = "127.0.0.1" -> protocol c = "http:")
  /\ (getSearchParam env "protocol" = None ->
      hostname c <> "127.0.0.1" ->
      protocol c = nullish (opt_chain url url_protocol)
                     (location_protocol env))
  /\ (getSearchParam env "protocol" = Some "" ->
      protocol c = nullish (opt_chain url url_protocol)
                     (location_protocol env)).
Proof.
  intros Hx Hu Hc.
  rewrite (ResolverFacts.browser_branch env url Hx Hu) in Hc.
  destruct (negb (truthy (resolve_hostname env url))
            || negb (truthy (resolve_port env url))); [discriminate |].
  injection Hc as <-. simpl. unfold resolve_protocol.
  split; [| split].
  - intros -> ->. reflexivity.
  - intros -> Hne. apply String.eqb_neq in Hne. simpl. now rewrite Hne.
  - intros ->. reflexivity.
Qed.

Lemma protocol_without_param_witness :
  protocol (mkECC "example.com" "9443" "s3cret" "https:") = "https:".
Proof.
  apply (proj1 (proj2 (protocol_without_param env_meta
                         (Some (mkURL "https:" "s3cret" "example.com" "9443"))
                         (mkECC "example.com" "9443" "s3cret" "https:")
                         eq_refl eq_refl eq_refl)));
    [reflexivity | discriminate].
Defined.

End ResolverMore.

(* ------------------------------------------------------------------ *)
(** ** Facts about strings *)

Module StringFacts.

Import Uri.

Lemma append_assoc (a b c : string) : (a ++ b) ++ c = a ++ (b ++ c).
Proof. induction a as [| x a IH]; simpl; [| rewrite IH]; reflexivity. Qed.

Lemma length_append (a b : string) :
  String.length (a ++ b) = String.length a + String.length b.
Proof. induction a as [| x a IH]; simpl; [| rewrite IH]; reflexivity. Qed.

Lemma append_inv_head (p a b : string) : p ++ a = p ++ b -> a = b.
Proof.
  induction p as [| x p IH]; simpl; [auto |]. intros [= H]. auto.
Qed.

Lemma append_inv_tail (t a b : string) : a ++ t = b ++ t -> a = b.
Proof.
  revert b. induction a as [| x a IH]; intros [| y b] H; simpl in *.
  - reflexivity.
  - apply (f_equal String.length) in H. simpl in H.
    rewrite length_append in H. lia.
  - apply (f_equal String.length) in H. simpl in H.
    rewrite length_append in H. lia.
  - injection H as -> H. f_equal. now apply IH.
Qed.

Lemma count_char_append (c : ascii) (a b : string) :
  count_char c (a ++ b) = count_char c a + count_char c b.
Proof.
  induction a as [| x a IH]; simpl; [reflexivity |]. rewrite IH. lia.
Qed.

Lemma all_chars_append (p : ascii -> bool) (a b : string) :
  all_chars p (a ++ b) = all_chars p a && all_chars p b.
Proof.
  induction a as [| x a IH]; simpl; [reflexivity |].
  rewrite IH. apply andb_assoc.
Qed.

(** A character outside the alphabet of a string does not occur in it. *)
Lemma all_chars_count (p : ascii -> bool) (c : ascii) (s : string) :
  all_chars p s = true -> p c = false -> count_char c s = 0.
Proof.
  intros Hall Hc. induction s as [| x s IH]; simpl in *; [reflexivity |].
  apply andb_true_iff in Hall. destruct Hall as [Hx Hs].
  destruct (Ascii.eqb_spec x c) as [-> | _]; [congruence |].
  now apply IH.
Qed.

End StringFacts.

(* ------------------------------------------------------------------ *)
(** ** More on the client instance, the REST wrappers and the factories *)

Module RequestMore.

Import Streamer Request Fixtures Surroundings.

(** X6: the REST client and the two stream readers address the same
    daemon with the same credentials: each stream URL is the client's base
    URL followed by the route, and the client sends an [Authorization]
    header exactly when the token handed to the readers is non-empty,
    namely ['Bearer '] followed by that token. *)
Theorem client_and_streams_agree (env : Env) (c : ExternalControllerConfig) :
  getExternalControllerConfig env = Ok c ->
  exists inst,
    getInstance_factory env = Ok inst
    /\ (forall level,
          logs_url c level = Axios.baseURL inst ++ "/logs?level=" ++ level)
    /\ connections_url c = Axios.baseURL inst ++ "/connections"
    /\ (secret c = "" -> Axios.authorization inst = None)
    /\ (secret c <> "" ->
        Axios.authorization inst = Some ("Bearer " ++ secret c)).
Proof.
  intros Hc. unfold getInstance_factory. rewrite Hc. cbn [Js.bind].
  eexists. split; [reflexivity |].
  cbn [Axios.baseURL Axios.authorization].
  unfold logs_url, connections_url.
  repeat split.
  - intros level. now rewrite !StringFacts.append_assoc.
  - now rewrite !StringFacts.append_assoc.
  - intros ->. reflexivity.
  - intros Hne. apply truthy_true_iff in Hne. now rewrite Hne.
Qed.

Lemma client_and_streams_agree_witness :
  exists inst,
    getInstance_factory env_remote = Ok inst
    /\ (forall level,
          logs_url (mkECC "192.168.1.2" "9090" "s3cret" "http:") level
          = Axios.baseURL inst ++ "/logs?level=" ++ level)
    /\ connections_url (mkECC "192.168.1.2" "9090" "s3cret" "http:")
       = Axios.baseURL inst ++ "/connections"
    /\ (secret (mkECC "192.168.1.2" "9090" "s3cret" "http:") = "" ->
        Axios.authorization inst = None)
    /\ (secret (mkECC "192.168.1.2" "9090" "s3cret" "http:") <> "" ->
        Axios.authorization inst
        = Some ("Bearer "
                ++ secret (mkECC "192.168.1.2" "9090" "s3cret" "http:"))).
Proof.
  exact (client_and_streams_agree env_remote
           (mkECC "192.168.1.2" "9090" "s3cret" "http:") eq_refl).
Defined.

(** X7: a resolver failure makes the connections factory fail with that
    error before [getInstance] is called; and a reader the factory returns
    is built from the resolved endpoint alone, so two runs that both
    return a reader return the same one, whatever the daemons answered and
    whatever state the [getInstance] singleton was in. *)
Theorem connections_reader_from_endpoint_only (env : Env) :
  (forall daemon s e,
     getExternalControllerConfig env = Throw e ->
     getConnectionStreamReader_factory env daemon s = (Throw e, s))
  /\ (forall daemon s sr s',
        getConnectionStreamReader_factory env daemon s = (Ok sr, s') ->
        exists c,
          getExternalControllerConfig env = Ok c
          /\ sr = Streamer.new
                    (mkConfig (connections_url c) 200 (secret c) true))
  /\ (forall daemon1 daemon2 s1 s2 sr1 sr2 s1' s2',
        getConnectionStreamReader_factory env daemon1 s1 = (Ok sr1, s1') ->
        getConnectionStreamReader_factory env daemon2 s2 = (Ok sr2, s2') ->
        sr1 = sr2).
Proof.
  assert (Hinv : forall daemon s sr s',
            getConnectionStreamReader_factory env daemon s = (Ok sr, s') ->
            exists c,
              getExternalControllerConfig env = Ok c
              /\ sr = Streamer.new
                        (mkConfig (connections_url c) 200 (secret c) true)).
  { intros daemon s sr s' H.
    destruct (RequestFacts.connections_factory_inv _ _ _ _ _ H) as (c & Hc).
    rewrite (RequestFacts.connections_factory_run _ daemon s _ Hc) in H.
    injection H as <- _. now exists c. }
  split; [| split; [exact Hinv |]].
  - intros daemon s e Hc.
    unfold getConnectionStreamReader_factory, abind, lift. now rewrite Hc.
  - intros daemon1 daemon2 s1 s2 sr1 sr2 s1' s2' H1 H2.
    destruct (Hinv _ _ _ _ H1) as (c1 & Hc1 & ->).
    destruct (Hinv _ _ _ _ H2) as (c2 & Hc2 & ->).
    rewrite Hc1 in Hc2. now injection Hc2 as ->.
Qed.

Lemma connections_reader_from_endpoint_only_witness :
  getConnectionStreamReader_factory env_clashx_failed daemon_ok fresh
  = (Throw bridge_failed, fresh).
Proof.
  exact (proj1 (connections_reader_from_endpoint_only env_clashx_failed)
           daemon_ok fresh bridge_failed eq_refl).
Defined.

(** X8: for the logs reader the first two steps are fatal: a resolver
    failure is returned before [getInstance] is called at all, a
    [getConfig] failure is returned as it is, and the factory returns a
    reader only if both have succeeded. *)
Theorem logs_factory_fatal_steps (env : Env) (daemon : Daemon) (Log : Type)
  (s : AsyncSingleton.State Axios.Instance) :
  (forall e,
     getExternalControllerConfig env = Throw e ->
     @getLogsStreamReader_factory env daemon Log s = (Throw e, s))
  /\ (forall c e s1,
        getExternalControllerConfig env = Ok c ->
        getConfig env daemon s = (Throw e, s1) ->
        @getLogsStreamReader_factory env daemon Log s = (Throw e, s1))
  /\ (forall sr s',
        @getLogsStreamReader_factory env daemon Log s = (Ok sr, s') ->
        exists c resp s1,
          getExternalControllerConfig env = Ok c
          /\ getConfig env daemon s = (Ok resp, s1)
          /\ sr = Streamer.new
                    (mkConfig
                       (logs_url c (Models.log_level (Axios.data resp)))
                       200 (secret c) true)).
Proof.
  split; [| split].
  - intros e Hc. unfold getLogsStreamReader_factory, abind, lift.
    now rewrite Hc.
  - intros c e s1 Hc Hcfg. unfold getLogsStreamReader_factory.
    unfold abind at 1. unfold lift at 1. rewrite Hc.
    unfold abind at 1. now rewrite Hcfg.
  - intros sr s' H.
    destruct (RequestFacts.logs_factory_inv _ _ _ _ _ _ H)
      as (c & resp & s1 & Hc & Hcfg).
    rewrite (RequestFacts.logs_factory_run _ _ Log _ _ _ _ Hc Hcfg) in H.
    injection H as <- _. now exists c, resp, s1.
Qed.

Lemma logs_factory_fatal_steps_witness :
  @getLogsStreamReader_factory env_default daemon_broken unit fresh
  = (Throw Axios.bad_status, snd (getConfig env_default daemon_broken fresh)).
Proof.
  exact (proj1 (proj2 (logs_factory_fatal_steps env_default daemon_broken
                         unit fresh))
           (mkECC "127.0.0.1" "9090" "" "http:") Axios.bad_status
           (snd (getConfig env_default daemon_broken fresh))
           eq_refl eq_refl).
Defined.

End RequestMore.

(* ------------------------------------------------------------------ *)
(** ** The REST wrappers *)

Module RestFacts.

Import Request Rest Fixtures Surroundings.

(** What the client's default [validateStatus] lets through. *)
Lemma settle_default_inv {D : Type} (resp r : Axios.Response D) :
  Axios.settle Axios.default_validateStatus resp = Ok r ->
  r = resp
  /\ (Axios.status r = 0 \/ 200 <= Axios.status r < 300)%Z.
Proof.
  unfold Axios.settle, Axios.default_validateStatus.
  destruct (Z.eqb_spec (Axios.status resp) 0) as [H0 | H0]; simpl.
  - intros [= <-]. auto.
  - destruct (Z.leb_spec 200 (Axios.status resp));
      destruct (Z.ltb_spec (Axios.status resp) 300); simpl;
      try discriminate.
    intros [= <-]. split; [reflexivity | right; lia].
Qed.

(** X9: [getProxyProviders] resolves only with a response whose status is
    absent, between 200 and 299, or 404, and a resolved 404 always carries
    an empty provider table; every other status of the daemon rejects the
    call. *)
Theorem getProxyProviders_statuses (env : Env) (daemon : Daemon)
  (s : AsyncSingleton.State Axios.Instance) :
  (forall r s',
     getProxyProviders env daemon s = (Ok r, s') ->
     (Axios.status r = 0 \/ 200 <= Axios.status r < 300
      \/ Axios.status r = 404)%Z
     /\ (Axios.status r = 404%Z -> Models.providers (Axios.data r) = []))
  /\ (forall inst s1 resp,
        getInstance env s = (Ok inst, s1) ->
        GET_providers_proxies daemon inst = Ok resp ->
        Axios.status resp <> 0%Z ->
        ~ (200 <= Axios.status resp < 300)%Z ->
        Axios.status resp <> 404%Z ->
        getProxyProviders env daemon s = (Throw Axios.bad_status, s1)).
Proof.
  split.
  - intros r s'. unfold getProxyProviders, abind, lift, ret.
    destruct (getInstance env s) as [[inst | e] s1]; [| discriminate].
    unfold Axios.get.
    destruct (GET_providers_proxies daemon inst) as [resp | e];
      cbn [Js.bind]; [| discriminate].
    unfold Axios.settle, providers_validateStatus.
    destruct resp as [status data]. cbn [Axios.status].
    destruct ((status =? 0)%Z
              || ((200 <=? status)%Z && (status <? 300)%Z
                  || (status =? 404)%Z)) eqn:Hv; [| discriminate].
    rewrite !orb_true_iff, andb_true_iff, !Z.eqb_eq, Z.leb_le, Z.ltb_lt in Hv.
    intros [= <- _]. unfold providers_compat. cbn [Axios.status].
    destruct (Z.eqb_spec status 404) as [H4 | H4];
      cbn [Axios.status Axios.data Models.providers].
    + split; [lia | reflexivity].
    + split; [lia | intros; lia].
  - intros inst s1 resp Hi Hd H0 H2 H4.
    unfold getProxyProviders, abind, lift, ret. rewrite Hi.
    unfold Axios.get. rewrite Hd. cbn [Js.bind].
    unfold Axios.settle, providers_validateStatus.
    apply Z.eqb_neq in H0. apply Z.eqb_neq in H4. rewrite H0, H4.
    replace ((200 <=? Axios.status resp)%Z && (Axios.status resp <? 300)%Z)
      with false; [reflexivity |].
    symmetry. apply andb_false_iff.
    destruct (Z.leb_spec 200 (Axios.status resp)); [right | now left].
    apply Z.ltb_ge. lia.
Qed.

Lemma getProxyProviders_statuses_witness :
  getProxyProviders env_default daemon_broken fresh
  = (Throw Axios.bad_status, snd (getInstance env_default fresh)).
Proof.
  apply (proj2 (getProxyProviders_statuses env_default daemon_broken fresh)
           (Axios.mkInstance "http://127.0.0.1:9090" None)
           (snd (getInstance env_default fresh))
           (Axios.mkResponse 500 (Models.mkProxyProviders []))
           eq_refl eq_refl); simpl; lia.
Defined.

(** X10: a wrapper without a [validateStatus] of its own resolves only
    with the very response the daemon gave to the client instance, and
    only when its status is absent or between 200 and 299; in particular
    [getConfig] and [getVersion] reject a 404. *)
Theorem default_status_validation (env : Env) (daemon : Daemon)
  (s : AsyncSingleton.State Axios.Instance) :
  (forall r s',
     getConfig env daemon s = (Ok r, s') ->
     exists inst,
       getInstance env s = (Ok inst, s')
       /\ GET_configs daemon inst = Ok r
       /\ (Axios.status r = 0 \/ 200 <= Axios.status r < 300)%Z)
  /\ (forall r s',
        getVersion env daemon s = (Ok r, s') ->
        exists inst,
          getInstance env s = (Ok inst, s')
          /\ GET_version daemon inst = Ok r
          /\ (Axios.status r = 0 \/ 200 <= Axios.status r < 300)%Z)
  /\ (forall (Body : Type)
        (transport : Axios.Instance -> Call -> Result (Axios.Response Body))
        (c : Call) r s',
        send env transport c s = (Ok r, s') ->
        exists inst,
          getInstance env s = (Ok inst, s')
          /\ transport inst c = Ok r
          /\ (Axios.status r = 0 \/ 200 <= Axios.status r < 300)%Z).
Proof.
  split; [| split].
  - intros r s'. unfold getConfig, abind, lift.
    destruct (getInstance env s) as [[inst | e] s1]; [| discriminate].
    unfold Axios.get.
    destruct (GET_configs daemon inst) as [resp | e] eqn:Hd; cbn [Js.bind];
      [| discriminate].
    intros [= H <-]. apply settle_default_inv in H. destruct H as [-> H].
    exists inst. auto.
  - intros r s'. unfold getVersion, abind, lift.
    destruct (getInstance env s) as [[inst | e] s1]; [| discriminate].
    unfold Axios.get.
    destruct (GET_version daemon inst) as [resp | e] eqn:Hd; cbn [Js.bind];
      [| discriminate].
    intros [= H <-]. apply settle_default_inv in H. destruct H as [-> H].
    exists inst. auto.
  - intros Body transport c r s'. unfold send, abind, lift.
    destruct (getInstance env s) as [[inst | e] s1]; [| discriminate].
    unfold Axios.get.
    destruct (transport inst c) as [resp | e] eqn:Hd; cbn [Js.bind];
      [| discriminate].
    intros [= H <-]. apply settle_default_inv in H. destruct H as [-> H].
    exists inst. auto.
Qed.

Lemma default_status_validation_witness :
  exists inst,
    getInstance env_default fresh
    = (Ok inst, snd (getConfig env_default daemon_ok fresh))
    /\ GET_configs daemon_ok inst = Ok (Axios.mkResponse 200 config0)
    /\ (Axios.status (Axios.mkResponse 200 config0) = 0
        \/ 200 <= Axios.status (Axios.mkResponse 200 config0) < 300)%Z.
Proof.
  exact (proj1 (default_status_validation env_default daemon_ok fresh)
           (Axios.mkResponse 200 config0)
           (snd (getConfig env_default daemon_ok fresh)) eq_refl).
Defined.

(** X11: when no client instance can be had, every REST wrapper rejects
    with the error of [getInstance] itself, whatever the daemon or the
    transport would have answered. *)
Theorem wrappers_fail_without_instance (env : Env)
  (s : AsyncSingleton.State Axios.Instance) (e : Error) :
  fst (getInstance env s) = Throw e ->
  let s' := snd (getInstance env s) in
  (forall daemon,
     getConfig env daemon s = (Throw e, s')
     /\ getVersion env daemon s = (Throw e, s')
     /\ getProxyProviders env daemon s = (Throw e, s'))
  /\ (forall (Body : Type)
        (transport : Axios.Instance -> Call -> Result (Axios.Response Body))
        (c : Call),
        send env transport c s = (Throw e, s')).
Proof.
  intros He s'. unfold s'.
  unfold getConfig, getVersion, getProxyProviders, send, abind.
  destruct (getInstance env s) as [[inst | e'] s1]; simpl in *;
    [discriminate |].
  injection He as ->. repeat split.
Qed.

Lemma wrappers_fail_without_instance_witness :
  getProxy env_bad_meta transport_ok "DIRECT" fresh
  = (Throw invalid_url, snd (getInstance env_bad_meta fresh)).
Proof.
  exact (proj2 (wrappers_fail_without_instance env_bad_meta fresh
                  invalid_url eq_refl)
           unit transport_ok (getProxy_call "DIRECT")).
Defined.

End RestFacts.

(* ------------------------------------------------------------------ *)
(** ** Percent-encoded names in request paths *)

Module UriFacts.

Import Uri Rest StringFacts.

Ltac each_byte a :=
  destruct a as [[] [] [] [] [] [] [] []].

Lemma encode_byte_alphabet (a : ascii) :
  all_chars segment_char (encode_byte a) = true.
Proof. each_byte a; reflexivity. Qed.

Lemma decode_encode_byte (a : ascii) (rest : string) :
  percent_decode (encode_byte a ++ rest)
  = option_map (String a) (percent_decode rest).
Proof.
  each_byte a; cbn; destruct (percent_decode rest); reflexivity.
Qed.

Lemma encode_alphabet (s : string) :
  all_chars segment_char (encodeURIComponent s) = true.
Proof.
  induction s as [| a s IH]; [reflexivity |].
  cbn [encodeURIComponent].
  now rewrite all_chars_append, encode_byte_alphabet, IH.
Qed.

Lemma encode_round_trip (s : string) :
  percent_decode (encodeURIComponent s) = Some s.
Proof.
  induction s as [| a s IH]; [reflexivity |].
  cbn [encodeURIComponent]. now rewrite decode_encode_byte, IH.
Qed.

Lemma encode_injective (s t : string) :
  encodeURIComponent s = encodeURIComponent t -> s = t.
Proof.
  intros H. apply (f_equal percent_decode) in H.
  rewrite !encode_round_trip in H. now injection H.
Qed.

(** A character that is neither unreserved nor [%] does not occur in an
    encoded segment. *)
Lemma encode_count (c : ascii) (s : string) :
  segment_char c = false -> count_char c (encodeURIComponent s) = 0.
Proof.
  intros Hc.
  apply (all_chars_count segment_char); [apply encode_alphabet | exact Hc].
Qed.

(** An encoded name consists of unreserved characters and [%] only, so
    none of the URL delimiters [/ ? # & = : @ +] nor a space occurs in
    it. *)
Lemma encoded_name_has_no_delimiter (s : string) :
  all_chars segment_char (encodeURIComponent s) = true
  /\ Forall (fun c => count_char c (encodeURIComponent s) = 0)
       ["/"; "?"; "#"; "&"; "="; ":"; "@"; "+"; " "]%char.
Proof.
  split; [apply encode_alphabet |].
  repeat constructor; apply encode_count; reflexivity.
Qed.

(** Encoding loses nothing: the name can be read back from the encoded
    segment, hence different names give different segments. *)
Lemma encoding_is_reversible (s t : string) :
  percent_decode (encodeURIComponent s) = Some s
  /\ (encodeURIComponent s = encodeURIComponent t -> s = t).
Proof. split; [apply encode_round_trip | apply encode_injective]. Qed.

(** A name made of unreserved characters only is sent as it is. *)
Lemma plain_name_unchanged (s : string) :
  all_chars unreserved s = true -> encodeURIComponent s = s.
Proof.
  induction s as [| a s IH]; [reflexivity |].
  cbn [all_chars encodeURIComponent]. intros H.
  apply andb_true_iff in H. destruct H as [Ha Hs].
  unfold encode_byte. rewrite Ha, (IH Hs). reflexivity.
Qed.

Ltac count_path :=
  cbn [path updateProvider_call updateRuleProvider_call
       healthCheckProvider_call getProxy_call getProxyDelay_call
       changeProxySelected_call closeConnection_call];
  rewrite ?count_char_append, ?encode_count by reflexivity;
  reflexivity.

(** X12: whatever the proxy or provider name, the request path keeps its
    shape: the number of [/] separators is that of the route, and no [?]
    or [#] appears.  A name cannot add a path segment, a query or a
    fragment. *)
Theorem name_stays_in_its_segment (name select : string) :
  let slashes c := count_char "/" (path c) in
  let marks c := count_char "?" (path c) + count_char "#" (path c) in
  (slashes (updateProvider_call name) = 2
   /\ slashes (updateRuleProvider_call name) = 2
   /\ slashes (healthCheckProvider_call name) = 3
   /\ slashes (getProxy_call name) = 1
   /\ slashes (getProxyDelay_call name) = 2
   /\ slashes (changeProxySelected_call name select) = 1)
  /\ (marks (updateProvider_call name) = 0
      /\ marks (updateRuleProvider_call name) = 0
      /\ marks (healthCheckProvider_call name) = 0
      /\ marks (getProxy_call name) = 0
      /\ marks (getProxyDelay_call name) = 0
      /\ marks (changeProxySelected_call name select) = 0).
Proof.
  intros slashes marks. unfold slashes, marks.
  repeat split; count_path.
Qed.

(** X13: requests for different names go to different paths, and no name
    turns one route into another: an update of a provider is never a
    health check of some provider, and a proxy lookup is never a delay
    test of some proxy. *)
Theorem routes_do_not_collide (n m : string) :
  (path (getProxy_call n) = path (getProxy_call m) -> n = m)
  /\ (path (getProxyDelay_call n) = path (getProxyDelay_call m) -> n = m)
  /\ (path (updateProvider_call n) = path (updateProvider_call m) -> n = m)
  /\ (path (updateRuleProvider_call n) = path (updateRuleProvider_call m)
      -> n = m)
  /\ (path (healthCheckProvider_call n) = path (healthCheckProvider_call m)
      -> n = m)
  /\ path (updateProvider_call n) <> path (healthCheckProvider_call m)
  /\ path (getProxy_call n) <> path (getProxyDelay_call m).
Proof.
  repeat split.
  - cbn [path getProxy_call]. intros H.
    now apply append_inv_head, encode_injective in H.
  - cbn [path getProxyDelay_call]. intros H.
    now apply append_inv_head, append_inv_tail, encode_injective in H.
  - cbn [path updateProvider_call]. intros H.
    now apply append_inv_head, encode_injective in H.
  - cbn [path updateRuleProvider_call]. intros H.
    now apply append_inv_head, encode_injective in H.
  - cbn [path healthCheckProvider_call]. intros H.
    now apply append_inv_head, append_inv_tail, encode_injective in H.
  - intros H. apply (f_equal (count_char "/")) in H.
    destruct (name_stays_in_its_segment n "") as [(H1 & _) _].
    destruct (name_stays_in_its_segment m "") as [(_ & _ & H2 & _) _].
    cbv zeta in H1, H2. rewrite H1, H2 in H. discriminate.
  - intros H. apply (f_equal (count_char "/")) in H.
    destruct (name_stays_in_its_segment n "") as [(_ & _ & _ & H1 & _) _].
    destruct (name_stays_in_its_segment m "")
      as [(_ & _ & _ & _ & H2 & _) _].
    cbv zeta in H1, H2. rewrite H1, H2 in H. discriminate.
Qed.

Lemma routes_do_not_collide_witness :
  path (getProxy_call "a/delay") <> path (getProxyDelay_call "a").
Proof.
  exact (proj2 (proj2 (proj2 (proj2 (proj2 (proj2
           (routes_do_not_collide "a/delay" "a"))))))).
Defined.

(** X14: the connection identifier is not encoded: every occurrence of a
    character in the identifier reaches the path, so each [/] in it adds
    a segment, and identifiers are still told apart. *)
Theorem closeConnection_splices_id (id id' : string) (c : ascii) :
  count_char c (path (closeConnection_call id))
  = count_char c "connections/" + count_char c id
  /\ count_char "/" (path (closeConnection_call id))
     = 1 + count_char "/" id
  /\ (path (closeConnection_call id) = path (closeConnection_call id')
      -> id = id').
Proof.
  cbn [path closeConnection_call]. split; [| split].
  - apply count_char_append.
  - now rewrite count_char_append.
  - apply append_inv_head.
Qed.

Lemma closeConnection_splices_id_witness :
  count_char "/" (path (closeConnection_call "a/b")) = 2.
Proof.
  exact (proj1 (proj2 (closeConnection_splices_id "a/b" "a/b" "/"))).
Defined.

End UriFacts.
